(** * The MCP client of open-codex: a shallow embedding and its properties

    The development follows the TypeScript class [MCPClient]: the two maps
    [clients] and [mcpServers], the tool catalogue [tools], the state file,
    and the methods [startServers], [saveServerState], [loadServerState],
    [cleanup], [refreshTools] and [executeToolCall].

    Conventions of the embedding.
    - A JavaScript [Map] (and a plain object used as a record of entries) is
      an association list in insertion order with unique keys ([JsMap]).
      For a plain object this is the order of its ordinary property names;
      names the engine treats specially are not modelled, and no statement
      below rests on the order in which a state object is listed.
    - The object [this] and the outside world (files, child processes,
      network, random sources) form the state of a small monad [Eff]; a
      JavaScript exception is the outcome [Thrown], and state changes made
      before a throw persist, as they do in JavaScript.
    - What the environment answers (does a write fail, what does a server
      reply, which number does [Math.random] return) is read from [Env].
    - Calls to [log] are not part of the model. *)

From Stdlib Require Import List String Ascii Bool Arith ZArith QArith Qround Lia.
From Stdlib Require Import DecimalString.
Import ListNotations.

Local Open Scope list_scope.
Local Open Scope string_scope.

(** ** JavaScript strings *)

Module Js.

(** [s.split(sep)] for a one-character separator: the pieces between
    every occurrence of [sep]; the empty string gives one empty piece. *)
Fixpoint split (sep : ascii) (s : string) : list string :=
  match s with
  | EmptyString => [EmptyString]
  | String c rest =>
      if Ascii.eqb c sep then EmptyString :: split sep rest
      else match split sep rest with
           | piece :: pieces => String c piece :: pieces
           | [] => [String c EmptyString]
           end
  end.

(** [s.split(sep, limit)]: the array of all pieces, truncated to its
    first [limit] elements. *)
Definition split_limit (sep : ascii) (limit : nat) (s : string) : list string :=
  firstn limit (split sep s).

(** [!x] for [x : string | undefined]: [undefined] and the empty string
    are falsy. *)
Definition falsy (x : option string) : bool :=
  match x with
  | None => true
  | Some EmptyString => true
  | Some (String _ _) => false
  end.

(** The string behind a value that is not [undefined]. *)
Definition value (x : option string) : string :=
  match x with
  | Some s => s
  | None => EmptyString
  end.

(** [n.toString()] for an integer: decimal digits. *)
Definition toString (n : Z) : string :=
  NilZero.string_of_int (Z.to_int n).

(** The text before the first occurrence of [sep] (all of [s] when there
    is none) and the text after it ([None] when there is none). *)
Fixpoint cut_first (sep : ascii) (s : string) : string * option string :=
  match s with
  | EmptyString => (EmptyString, None)
  | String c rest =>
      if Ascii.eqb c sep then (EmptyString, Some rest)
      else let (before, after) := cut_first sep rest in (String c before, after)
  end.

End Js.

(** ** Insertion-ordered maps with string keys *)

Module JsMap.

Definition t (V : Type) : Type := list (string * V).

Definition empty {V : Type} : t V := [].

Fixpoint get {V : Type} (k : string) (m : t V) : option V :=
  match m with
  | [] => None
  | (k', v) :: m' => if String.eqb k' k then Some v else get k m'
  end.

Definition has {V : Type} (k : string) (m : t V) : bool :=
  match get k m with Some _ => true | None => false end.

(** [m.set(k, v)]: an existing key keeps its position, a new key goes
    to the end. *)
Fixpoint set {V : Type} (k : string) (v : V) (m : t V) : t V :=
  match m with
  | [] => [(k, v)]
  | (k', v') :: m' =>
      if String.eqb k' k then (k', v) :: m' else (k', v') :: set k v m'
  end.

Fixpoint delete {V : Type} (k : string) (m : t V) : t V :=
  match m with
  | [] => []
  | (k', v') :: m' =>
      if String.eqb k' k then delete k m' else (k', v') :: delete k m'
  end.

Definition size {V : Type} (m : t V) : nat := List.length m.

Definition entries {V : Type} (m : t V) : list (string * V) := m.

Definition keys {V : Type} (m : t V) : list string := map fst m.

(** Keys are unique: the invariant of every map built with [set]. *)
Definition wf {V : Type} (m : t V) : Prop := NoDup (keys m).

End JsMap.

(** ** The data of the client (the interfaces of the source) *)

(** The [parameters] of a tool; a property's value (of type [unknown] in
    the source) is kept as its JSON text. *)
Record Parameters : Type := {
  param_type : string;
  param_properties : list (string * string);
  param_required : option (list string)
}.

Record MCPTool : Type := {
  tool_name : string;
  tool_description : string;
  tool_parameters : Parameters
}.

Record MCPToolCall : Type := {
  call_id : string;
  call_name : string;
  call_arguments : string
}.

Record MCPToolResult : Type := {
  result_id : string;
  result_result : string;
  result_error : option string
}.

(** A [ChildProcess] handle, identified by its process id. *)
Record ChildProcess : Type := { pid : nat }.

Record MCPServerInfo : Type := {
  server_id : string;
  server_url : string;
  server_process : option ChildProcess
}.

(** The instance returned by [axios.create({ baseURL, timeout })]. *)
Record AxiosInstance : Type := {
  baseURL : string;
  timeout : Z
}.

Record MCPClient : Type := {
  clients : JsMap.t AxiosInstance;
  enabled : bool;
  tools : list MCPTool;
  mcpServers : JsMap.t MCPServerInfo;
  serverStateFile : string
}.

(** Modelled from the spec: the type [MCPConfig] of [./config] is not among
    the sources.  A server is launched from a name, a command and its
    arguments; [startServers] reads [config.mcpServers] (possibly
    undefined) and, of every entry, [command] and [args]. *)
Record ServerConfig : Type := {
  command : string;
  args : list string
}.

Record MCPConfig : Type := {
  config_mcpServers : option (JsMap.t ServerConfig)
}.

(** ** The outside world *)

(** An entry of the state file: [{ id, url }]. *)
Record SavedInfo : Type := {
  saved_id : string;
  saved_url : string
}.

(** The text of a file: either the JSON text of a state object (what
    [JSON.stringify(state, null, 2)] writes and [JSON.parse] reads back),
    or any other text, on which the body of [loadServerState] throws. *)
Inductive FileText : Type :=
| StateJson (state : JsMap.t SavedInfo)
| OtherText (raw : string).

(** The body sent by [client.post("/execute", body)]. *)
Record ExecuteBody : Type := {
  body_id : string;
  body_name : string;
  body_arguments : string
}.

Inductive Request : Type :=
| GetTools (client : AxiosInstance)
| PostExecute (client : AxiosInstance) (body : ExecuteBody).

(** What a request ends in: the [data] of a successful response, or the
    message of the error the call throws (connection refused, timeout,
    error status, unusable body). *)
Inductive Reply (A : Type) : Type :=
| Data (data : A)
| Failure (message : string).
Arguments Data {A} data.
Arguments Failure {A} message.

Record SpawnCall : Type := {
  spawn_command : string;
  spawn_args : list string
}.

(** The answers of the environment. *)
Record Env : Type := {
  write_fails : string -> bool;
  random_src : nat -> Q;
  uuid_src : nat -> string;
  spawn_fails : string -> bool;
  kill_fails : ChildProcess -> bool;
  tools_reply : AxiosInstance -> Reply (list MCPTool);
  execute_reply : AxiosInstance -> ExecuteBody -> Reply MCPToolResult
}.

(** The mutable part of the world, with the traces of what was done. *)
Record World : Type := {
  files : string -> option FileText;
  random_calls : nat;
  uuid_calls : nat;
  spawned : list SpawnCall;
  kill_calls : list ChildProcess;
  requests : list Request
}.

Record State : Type := {
  this : MCPClient;
  world : World
}.

(** ** The effect monad *)

Inductive outcome (A : Type) : Type :=
| Returned (a : A)
| Thrown (message : string).
Arguments Returned {A} a.
Arguments Thrown {A} message.

Definition Eff (A : Type) : Type := Env -> State -> outcome A * State.

Definition ret {A : Type} (a : A) : Eff A :=
  fun _ s => (Returned a, s).

Definition bind {A B : Type} (m : Eff A) (k : A -> Eff B) : Eff B :=
  fun e s =>
    match m e s with
    | (Returned a, s') => k a e s'
    | (Thrown msg, s') => (Thrown msg, s')
    end.

Definition throw {A : Type} (msg : string) : Eff A :=
  fun _ s => (Thrown msg, s).

(** [try { m } catch (error) { handler(error) }] *)
Definition try_catch {A : Type} (m : Eff A) (handler : string -> Eff A) : Eff A :=
  fun e s =>
    match m e s with
    | (Returned a, s') => (Returned a, s')
    | (Thrown msg, s') => handler msg e s'
    end.

Declare Scope eff_scope.
Delimit Scope eff_scope with eff.
Notation "x <- m ;; k" := (bind m (fun x => k))
  (at level 61, m at next level, right associativity) : eff_scope.
Notation "m ;; k" := (bind m (fun _ => k))
  (at level 61, right associativity) : eff_scope.
Local Open Scope eff_scope.

(** [for (const x of xs) { body(x) }] *)
Fixpoint for_of {X : Type} (xs : list X) (body : X -> Eff unit) : Eff unit :=
  match xs with
  | [] => ret tt
  | x :: xs' => body x ;; for_of xs' body
  end.

Definition ask {A : Type} (f : Env -> A) : Eff A :=
  fun e s => (Returned (f e), s).

Definition gets {A : Type} (f : MCPClient -> A) : Eff A :=
  fun _ s => (Returned (f (this s)), s).

Definition modify_this (f : MCPClient -> MCPClient) : Eff unit :=
  fun _ s => (Returned tt, {| this := f (this s); world := world s |}).

Definition gets_world {A : Type} (f : World -> A) : Eff A :=
  fun _ s => (Returned (f (world s)), s).

Definition modify_world (f : World -> World) : Eff unit :=
  fun _ s => (Returned tt, {| this := this s; world := f (world s) |}).

(** Assignments to the fields of [this] and of the world. *)
Definition set_clients (c : JsMap.t AxiosInstance) (t : MCPClient) : MCPClient :=
  {| clients := c; enabled := enabled t; tools := tools t;
     mcpServers := mcpServers t; serverStateFile := serverStateFile t |}.

Definition set_mcpServers (m : JsMap.t MCPServerInfo) (t : MCPClient) : MCPClient :=
  {| clients := clients t; enabled := enabled t; tools := tools t;
     mcpServers := m; serverStateFile := serverStateFile t |}.

Definition set_tools (ts : list MCPTool) (t : MCPClient) : MCPClient :=
  {| clients := clients t; enabled := enabled t; tools := ts;
     mcpServers := mcpServers t; serverStateFile := serverStateFile t |}.

Definition write_file (path : string) (text : FileText) (w : World) : World :=
  {| files := fun p => if String.eqb p path then Some text else files w p;
     random_calls := random_calls w; uuid_calls := uuid_calls w;
     spawned := spawned w; kill_calls := kill_calls w; requests := requests w |}.

Definition count_random (w : World) : World :=
  {| files := files w; random_calls := S (random_calls w);
     uuid_calls := uuid_calls w; spawned := spawned w;
     kill_calls := kill_calls w; requests := requests w |}.

Definition count_uuid (w : World) : World :=
  {| files := files w; random_calls := random_calls w;
     uuid_calls := S (uuid_calls w); spawned := spawned w;
     kill_calls := kill_calls w; requests := requests w |}.

Definition record_spawn (c : SpawnCall) (w : World) : World :=
  {| files := files w; random_calls := random_calls w;
     uuid_calls := uuid_calls w; spawned := (spawned w ++ [c])%list;
     kill_calls := kill_calls w; requests := requests w |}.

Definition record_kill (p : ChildProcess) (w : World) : World :=
  {| files := files w; random_calls := random_calls w;
     uuid_calls := uuid_calls w; spawned := spawned w;
     kill_calls := (kill_calls w ++ [p])%list; requests := requests w |}.

Definition record_request (r : Request) (w : World) : World :=
  {| files := files w; random_calls := random_calls w;
     uuid_calls := uuid_calls w; spawned := spawned w;
     kill_calls := kill_calls w; requests := (requests w ++ [r])%list |}.

(** ** The primitives the class calls *)

(** [Math.random()]: the next number of the source, in [0, 1).  The
    number is a rational and arithmetic on it is exact. *)
Definition Math_random : Eff Q :=
  n <- gets_world random_calls ;;
  r <- ask (fun e => random_src e n) ;;
  modify_world count_random ;;
  ret r.

Definition randomUUID : Eff string :=
  n <- gets_world uuid_calls ;;
  u <- ask (fun e => uuid_src e n) ;;
  modify_world count_uuid ;;
  ret u.

(** [spawn(command, args, options)]: a new child process, or an exception
    when the process cannot be created. *)
Definition spawn (cmd : string) (argv : list string) : Eff ChildProcess :=
  fails <- ask (fun e => spawn_fails e cmd) ;;
  if (fails : bool) then throw "spawn failed"
  else
    n <- gets_world (fun w => List.length (spawned w)) ;;
    modify_world (record_spawn {| spawn_command := cmd; spawn_args := argv |}) ;;
    ret {| pid := n |}.

(** [process.kill()]: the call is recorded, then may throw. *)
Definition kill (p : ChildProcess) : Eff unit :=
  modify_world (record_kill p) ;;
  fails <- ask (fun e => kill_fails e p) ;;
  if (fails : bool) then throw "kill failed" else ret tt.

Definition existsSync (path : string) : Eff bool :=
  gets_world (fun w => match files w path with Some _ => true | None => false end).

Definition readFileSync (path : string) : Eff FileText :=
  content <- gets_world (fun w => files w path) ;;
  match content with
  | Some text => ret text
  | None => throw "ENOENT: no such file or directory"
  end.

Definition writeFileSync (path : string) (text : FileText) : Eff unit :=
  fails <- ask (fun e => write_fails e path) ;;
  if (fails : bool) then throw "EACCES: permission denied"
  else modify_world (write_file path text).

Definition JSON_stringify (state : JsMap.t SavedInfo) : FileText :=
  StateJson state.

Definition JSON_parse (text : FileText) : Eff (JsMap.t SavedInfo) :=
  match text with
  | StateJson state => ret state
  | OtherText _ => throw "SyntaxError: unexpected token in JSON"
  end.

Definition axios_create (url : string) (ms : Z) : AxiosInstance :=
  {| baseURL := url; timeout := ms |}.

(** [client.get("/tools")], giving [response.data.tools]. *)
Definition client_get_tools (client : AxiosInstance) : Eff (list MCPTool) :=
  modify_world (record_request (GetTools client)) ;;
  reply <- ask (fun e => tools_reply e client) ;;
  match reply with
  | Data serverTools => ret serverTools
  | Failure msg => throw msg
  end.

(** [client.post("/execute", body)], giving [response.data]. *)
Definition client_post_execute (client : AxiosInstance) (body : ExecuteBody)
  : Eff MCPToolResult :=
  modify_world (record_request (PostExecute client body)) ;;
  reply <- ask (fun e => execute_reply e client body) ;;
  match reply with
  | Data data => ret data
  | Failure msg => throw msg
  end.

(** ** The class [MCPClient] *)

(** The field initialisers and the first two assignments of the
    constructor; [stateFile] is [join(process.cwd(), ".mcp-servers.json")]. *)
Definition new_MCPClient (stateFile : string) : MCPClient :=
  {| clients := JsMap.empty; enabled := true; tools := [];
     mcpServers := JsMap.empty; serverStateFile := stateFile |}.

(** [saveServerState]. *)
Definition state_of (servers : JsMap.t MCPServerInfo) : JsMap.t SavedInfo :=
  fold_left
    (fun state '(name, info) =>
       JsMap.set name {| saved_id := server_id info; saved_url := server_url info |} state)
    (JsMap.entries servers) JsMap.empty.

Definition saveServerState : Eff unit :=
  try_catch
    (servers <- gets mcpServers ;;
     let state := state_of servers in
     file <- gets serverStateFile ;;
     writeFileSync file (JSON_stringify state))
    (fun _ => ret tt).

(** [loadServerState]. *)
Definition loadServerState : Eff unit :=
  try_catch
    (file <- gets serverStateFile ;;
     present <- existsSync file ;;
     if (present : bool) then
       rawState <- readFileSync file ;;
       state <- JSON_parse rawState ;;
       for_of (JsMap.entries state) (fun '(name, info) =>
         known <- gets (fun t => JsMap.has name (mcpServers t)) ;;
         if negb known then
           modify_this (fun t => set_mcpServers
             (JsMap.set name {| server_id := saved_id info;
                                server_url := saved_url info;
                                server_process := None |} (mcpServers t)) t) ;;
           modify_this (fun t => set_clients
             (JsMap.set name (axios_create (saved_url info) 10000) (clients t)) t)
         else ret tt)
     else ret tt)
    (fun _ => ret tt).

(** The body of the loop of [startServers]: one server is launched. *)
Definition launch (name : string) (serverConfig : ServerConfig) : Eff unit :=
  try_catch
    (r <- Math_random ;;
     let port := (8000 + Qfloor (r * inject_Z 1000))%Z in
     let url := "http://localhost:" ++ Js.toString port in
     id <- randomUUID ;;
     process <- spawn (command serverConfig)
                      (args serverConfig ++ ["--port"; Js.toString port])%list ;;
     let serverInfo := {| server_id := id; server_url := url;
                          server_process := Some process |} in
     modify_this (fun t => set_mcpServers (JsMap.set name serverInfo (mcpServers t)) t) ;;
     modify_this (fun t => set_clients
       (JsMap.set name (axios_create url 10000) (clients t)) t))
    (fun _ => ret tt).

(** [startServers]. *)
Definition startServers (config : MCPConfig) : Eff unit :=
  match config_mcpServers config with
  | None => ret tt
  | Some servers =>
      for_of (JsMap.entries servers) (fun '(name, serverConfig) =>
        launch name serverConfig) ;;
      saveServerState
  end.

(** The handler [process.on("exit", ...)] that [startServers] installs for
    the server [name]. *)
Definition on_exit (name : string) : Eff unit :=
  modify_this (fun t => set_mcpServers (JsMap.delete name (mcpServers t)) t).

(** [cleanup]. *)
Definition cleanup : Eff unit :=
  servers <- gets mcpServers ;;
  for_of (JsMap.entries servers) (fun '(name, info) =>
    match server_process info with
    | Some process => try_catch (kill process) (fun _ => ret tt)
    | None => ret tt
    end) ;;
  try_catch
    (file <- gets serverStateFile ;;
     present <- existsSync file ;;
     if (present : bool) then writeFileSync file (StateJson JsMap.empty) else ret tt)
    (fun _ => ret tt).

(** [isEnabled]. *)
Definition isEnabled (t : MCPClient) : bool :=
  enabled t && (0 <? JsMap.size (mcpServers t))%nat.

(** [refreshTools]. *)
Definition namespaced (name : string) (tool : MCPTool) : MCPTool :=
  {| tool_name := name ++ "." ++ tool_name tool;
     tool_description := "[" ++ name ++ "] " ++ tool_description tool;
     tool_parameters := tool_parameters tool |}.

Fixpoint poll (cs : list (string * AxiosInstance)) (allTools : list MCPTool)
  : Eff (list MCPTool) :=
  match cs with
  | [] => ret allTools
  | (name, client) :: cs' =>
      allTools' <-
        try_catch
          (serverTools <- client_get_tools client ;;
           let namespacedTools := map (namespaced name) serverTools in
           ret (allTools ++ namespacedTools)%list)
          (fun _ => ret allTools) ;;
      poll cs' allTools'
  end.

Definition refreshTools : Eff (list MCPTool) :=
  on <- gets enabled ;;
  size <- gets (fun t => JsMap.size (mcpServers t)) ;;
  if negb on || (size =? 0)%nat then ret []
  else
    cs <- gets (fun t => JsMap.entries (clients t)) ;;
    allTools <- poll cs [] ;;
    modify_this (set_tools allTools) ;;
    ret allTools.

(** [getTools]. *)
Definition getTools (t : MCPClient) : list MCPTool := tools t.

(** [executeToolCall]. *)
Definition error_disabled : string :=
  "MCP client is disabled or no servers are running".

Definition error_invalid_name (name : string) : string :=
  "Invalid tool name format: " ++ name ++ ". Expected format: server.toolName".

Definition error_not_found (serverName : string) : string :=
  "MCP server not found: " ++ serverName.

Definition error_executing (errorMessage : string) : string :=
  "Error executing MCP tool: " ++ errorMessage.

Definition failed (toolCall : MCPToolCall) (message : string) : MCPToolResult :=
  {| result_id := call_id toolCall; result_result := "";
     result_error := Some message |}.

Definition executeToolCall (toolCall : MCPToolCall) : Eff MCPToolResult :=
  on <- gets enabled ;;
  size <- gets (fun t => JsMap.size (mcpServers t)) ;;
  if negb on || (size =? 0)%nat then ret (failed toolCall error_disabled)
  else
    let parts := Js.split_limit "." 2 (call_name toolCall) in
    let serverName := nth_error parts 0 in
    let toolName := nth_error parts 1 in
    if Js.falsy serverName || Js.falsy toolName then
      ret (failed toolCall (error_invalid_name (call_name toolCall)))
    else
      let serverName := Js.value serverName in
      let toolName := Js.value toolName in
      client <- gets (fun t => JsMap.get serverName (clients t)) ;;
      match client with
      | None => ret (failed toolCall (error_not_found serverName))
      | Some client =>
          try_catch
            (let modifiedToolCall :=
               {| body_id := call_id toolCall; body_name := toolName;
                  body_arguments := call_arguments toolCall |} in
             client_post_execute client modifiedToolCall)
            (fun errorMessage =>
               ret (failed toolCall (error_executing errorMessage)))
      end.

Definition sent (r : Request) (s : State) : State :=
  {| this := this s; world := record_request r (world s) |}.

(** The names that the router's first step rejects: no separator, or an
    empty text before or after the first separator. *)
Definition malformed_name (name : string) : bool :=
  match Js.cut_first "." name with
  | (_, None) => true
  | (server, Some local) => (server =? "") || (local =? "")
  end.

(** ** Scenarios used to run the model *)

(** An environment in which nothing fails locally and no server answers. *)
Definition quiet_env : Env :=
  {| write_fails := fun _ => false;
     random_src := fun n => match n with O => 1 # 2 | S _ => 3 # 4 end;
     uuid_src := fun n => match n with O => "uuid-0" | S _ => "uuid-1" end;
     spawn_fails := fun _ => false;
     kill_fails := fun _ => false;
     tools_reply := fun _ => Failure "connect ECONNREFUSED";
     execute_reply := fun _ _ => Failure "connect ECONNREFUSED" |}.

Definition empty_world : World :=
  {| files := fun _ => None; random_calls := 0; uuid_calls := 0;
     spawned := []; kill_calls := []; requests := [] |}.

Definition fresh_state : State :=
  {| this := new_MCPClient "/work/.mcp-servers.json"; world := empty_world |}.

Definition two_servers : MCPConfig :=
  {| config_mcpServers :=
       Some [("A", {| command := "server-a"; args := ["--quiet"] |});
             ("B", {| command := "server-b"; args := [] |})] |}.

(** The state after [startServers] has launched [A] and [B]. *)
Definition two_running : State :=
  snd (startServers two_servers quiet_env fresh_state).

(** ... and after the child process of [A] has exited. *)
Definition after_exit_A : State :=
  snd (on_exit "A" quiet_env two_running).



(** An environment whose servers answer every execute request with the
    id ["2"]. *)
Definition other_id_env : Env :=
  {| write_fails := write_fails quiet_env;
     random_src := random_src quiet_env;
     uuid_src := uuid_src quiet_env;
     spawn_fails := spawn_fails quiet_env;
     kill_fails := kill_fails quiet_env;
     tools_reply := tools_reply quiet_env;
     execute_reply := fun _ _ =>
       Data {| result_id := "2"; result_result := "done"; result_error := None |} |}.

Definition call_A_x : MCPToolCall :=
  {| call_id := "1"; call_name := "A.x"; call_arguments := "{}" |}.

Definition call_A_b_c : MCPToolCall :=
  {| call_id := "1"; call_name := "A.b.c"; call_arguments := "{}" |}.

Definition call_noSeparator : MCPToolCall :=
  {| call_id := "1"; call_name := "noSeparator"; call_arguments := "{}" |}.

(** ** The catalogue, seen from outside *)

(** What one client adds to a refresh: the namespaced tools of its server
    when the listing request succeeds, nothing when it fails. *)
Definition contribution (e : Env) (entry : string * AxiosInstance) : list MCPTool :=
  match tools_reply e (snd entry) with
  | Data serverTools => map (namespaced (fst entry)) serverTools
  | Failure _ => []
  end.

Definition sent_all (rs : list Request) (s : State) : State :=
  fold_left (fun s' r => sent r s') rs s.

Definition listing_requests (cs : list (string * AxiosInstance)) : list Request :=
  map (fun entry => GetTools (snd entry)) cs.

Definition tool_x : MCPTool :=
  {| tool_name := "x"; tool_description := "does x";
     tool_parameters := {| param_type := "object"; param_properties := [];
                           param_required := None |} |}.

(** An environment whose servers all list the one tool [x]. *)
Definition listing_env : Env :=
  {| write_fails := write_fails quiet_env;
     random_src := random_src quiet_env;
     uuid_src := uuid_src quiet_env;
     spawn_fails := spawn_fails quiet_env;
     kill_fails := kill_fails quiet_env;
     tools_reply := fun _ => Data [tool_x];
     execute_reply := execute_reply quiet_env |}.

Definition one_server : MCPConfig :=
  {| config_mcpServers :=
       Some [("A", {| command := "server-a"; args := [] |})] |}.

(** The only server is launched, the catalogue is refreshed while the
    server answers, then its child process exits. *)
Definition listed_then_exited : State :=
  snd ((startServers one_server ;; refreshTools ;; on_exit "A")
         listing_env fresh_state).

(** An environment in which the server on port 8750 lists the tool [x]
    and no other server answers. *)
Definition half_env : Env :=
  {| write_fails := write_fails quiet_env;
     random_src := random_src quiet_env;
     uuid_src := uuid_src quiet_env;
     spawn_fails := spawn_fails quiet_env;
     kill_fails := kill_fails quiet_env;
     tools_reply := fun client =>
       if baseURL client =? "http://localhost:8750" then Data [tool_x]
       else Failure "connect ECONNREFUSED";
     execute_reply := execute_reply quiet_env |}.

(** ** Persistence, seen from outside *)


(** The record [loadServerState] makes of a saved entry: no process. *)
Definition discovered (info : SavedInfo) : MCPServerInfo :=
  {| server_id := saved_id info; server_url := saved_url info;
     server_process := None |}.

(** One turn of the loop of [loadServerState]. *)
Definition register_discovered (s : State) (entry : string * SavedInfo) : State :=
  if JsMap.has (fst entry) (mcpServers (this s)) then s
  else
    {| this :=
         set_clients
           (JsMap.set (fst entry) (axios_create (saved_url (snd entry)) 10000)
              (clients (this s)))
           (set_mcpServers
              (JsMap.set (fst entry) (discovered (snd entry)) (mcpServers (this s)))
              (this s));
       world := world s |}.

Definition load_entries (state : JsMap.t SavedInfo) (s : State) : State :=
  fold_left register_discovered (JsMap.entries state) s.

(** The child processes this client owns, in the order of the map. *)
Definition owned_processes (servers : JsMap.t MCPServerInfo) : list ChildProcess :=
  flat_map
    (fun entry => match server_process (snd entry) with
                  | Some process => [process]
                  | None => []
                  end)
    (JsMap.entries servers).

Definition killed (ps : list ChildProcess) (s : State) : State :=
  fold_left (fun s' p => {| this := this s'; world := record_kill p (world s') |}) ps s.

(** An environment in which no child process can be killed. *)
Definition unkillable_env : Env :=
  {| write_fails := write_fails quiet_env;
     random_src := random_src quiet_env;
     uuid_src := uuid_src quiet_env;
     spawn_fails := spawn_fails quiet_env;
     kill_fails := fun _ => true;
     tools_reply := tools_reply quiet_env;
     execute_reply := execute_reply quiet_env |}.

(** ** The accessors of the catalogue *)

(** [hasTool]. *)
Definition hasTool (name : string) (t : MCPClient) : bool :=
  existsb (fun tool => tool_name tool =? name) (tools t).

(** [getTool]: the first tool of that name, or [undefined]. *)
Definition getTool (name : string) (t : MCPClient) : option MCPTool :=
  find (fun tool => tool_name tool =? name) (tools t).

(** The declarations [getOpenAITools] returns:
    [{ type: "function", function: { name, description, parameters } }]. *)
Record OpenAIFunction : Type := {
  function_name : string;
  function_description : string;
  function_parameters : Parameters
}.

Record OpenAITool : Type := {
  openai_type : string;
  openai_function : OpenAIFunction
}.

(** [getOpenAITools]. *)
Definition getOpenAITools (t : MCPClient) : list OpenAITool :=
  map (fun tool =>
         {| openai_type := "function";
            openai_function :=
              {| function_name := tool_name tool;
                 function_description := tool_description tool;
                 function_parameters := tool_parameters tool |} |})
      (tools t).

(** ** Notions used to state what the methods keep *)

(** A text without the separator ["."]. *)
Fixpoint dot_free (s : string) : bool :=
  match s with
  | EmptyString => true
  | String c rest => negb (Ascii.eqb c ".") && dot_free rest
  end.

(** Every registered server has a client for its url, with the timeout
    the class gives to every client. *)
Definition linked (t : MCPClient) : Prop :=
  forall name info,
    JsMap.get name (mcpServers t) = Some info ->
    JsMap.get name (clients t) = Some (axios_create (server_url info) 10000).

(** The fields no method assigns. *)
Definition same_settings (t t' : MCPClient) : Prop :=
  enabled t' = enabled t /\ serverStateFile t' = serverStateFile t.

(** A client whose catalogue holds the tools [A.x] and [B.x]. *)
Definition two_listed : State :=
  snd (refreshTools listing_env two_running).

(** An environment in which the command [server-a] cannot be spawned. *)
Definition no_server_a_env : Env :=
  {| write_fails := write_fails quiet_env;
     random_src := random_src quiet_env;
     uuid_src := uuid_src quiet_env;
     spawn_fails := fun cmd => cmd =? "server-a";
     kill_fails := kill_fails quiet_env;
     tools_reply := tools_reply quiet_env;
     execute_reply := execute_reply quiet_env |}.

Definition call_ghost_x : MCPToolCall :=
  {| call_id := "7"; call_name := "ghost.x"; call_arguments := "{}" |}.

(** ** The states a client can be in *)

(** One step in the life of a client: a method runs to its end in some
    environment, one server is launched, the exit handler of a server
    runs, or the world changes under the client. *)
Inductive step : State -> State -> Prop :=
| step_launch (e : Env) (s : State) (name : string) (serverConfig : ServerConfig) :
    step s (snd (launch name serverConfig e s))
| step_startServers (e : Env) (s : State) (config : MCPConfig) :
    step s (snd (startServers config e s))
| step_saveServerState (e : Env) (s : State) :
    step s (snd (saveServerState e s))
| step_loadServerState (e : Env) (s : State) :
    step s (snd (loadServerState e s))
| step_on_exit (e : Env) (s : State) (name : string) :
    step s (snd (on_exit name e s))
| step_cleanup (e : Env) (s : State) :
    step s (snd (cleanup e s))
| step_refreshTools (e : Env) (s : State) :
    step s (snd (refreshTools e s))
| step_executeToolCall (e : Env) (s : State) (toolCall : MCPToolCall) :
    step s (snd (executeToolCall toolCall e s))
| step_world (s : State) (w : World) :
    step s {| this := this s; world := w |}.

(** The states reached from a client as the constructor initialises it. *)
Inductive reachable (stateFile : string) : State -> Prop :=
| reachable_new (w : World) :
    reachable stateFile {| this := new_MCPClient stateFile; world := w |}
| reachable_step (s s' : State) :
    reachable stateFile s -> step s s' -> reachable stateFile s'.

(** A state file left by an earlier run, holding one server. *)
Definition world_with_state : World :=
  write_file "/work/.mcp-servers.json"
    (StateJson [("old", {| saved_id := "uuid-9";
                           saved_url := "http://localhost:8123" |})])
    empty_world.


Definition one_running : State :=
  snd (startServers one_server quiet_env fresh_state).

(** What every state of a client satisfies: it is enabled, its state file
    is the one it was created with, names are unique in both maps, and
    every registered server has its client. *)
Definition sound (stateFile : string) (t : MCPClient) : Prop :=
  enabled t = true /\
  serverStateFile t = stateFile /\
  JsMap.wf (mcpServers t) /\
  JsMap.wf (clients t) /\
  linked t.

(** * Properties *)

(** ** Maps *)

Module JsMapFacts.
Import JsMap.

Lemma get_set_same {V : Type} (k : string) (v : V) (m : t V) :
  get k (set k v m) = Some v.
Proof.
  induction m as [|[k' v'] m IH]; simpl.
  - now rewrite String.eqb_refl.
  - destruct (String.eqb k' k) eqn:E; simpl; rewrite E; auto.
Qed.

Lemma get_set_other {V : Type} (k k0 : string) (v : V) (m : t V) :
  k <> k0 -> get k0 (set k v m) = get k0 m.
Proof.
  intros Hne. induction m as [|[k' v'] m IH]; simpl.
  - destruct (String.eqb_spec k k0); congruence.
  - destruct (String.eqb_spec k' k); simpl.
    + subst k'. destruct (String.eqb_spec k k0); congruence.
    + now rewrite IH.
Qed.

Lemma get_delete_same {V : Type} (k : string) (m : t V) :
  get k (delete k m) = None.
Proof.
  induction m as [|[k' v'] m IH]; simpl; auto.
  destruct (String.eqb k' k) eqn:E; simpl; auto. now rewrite E.
Qed.

Lemma get_delete_other {V : Type} (k k0 : string) (m : t V) :
  k <> k0 -> get k0 (delete k m) = get k0 m.
Proof.
  intros Hne. induction m as [|[k' v'] m IH]; simpl; auto.
  destruct (String.eqb_spec k' k); simpl.
  - subst k'. destruct (String.eqb_spec k k0); congruence.
  - now rewrite IH.
Qed.

Lemma get_none_not_in {V : Type} (k : string) (m : t V) :
  get k m = None <-> ~ In k (keys m).
Proof.
  induction m as [|[k' v'] m IH]; simpl.
  - tauto.
  - destruct (String.eqb_spec k' k); split; intros H.
    + discriminate.
    + exfalso. apply H. now left.
    + intros [H1 | H1]; [congruence | now apply IH in H].
    + apply IH. intros H1. apply H. now right.
Qed.

Lemma has_false_not_in {V : Type} (k : string) (m : t V) :
  has k m = false <-> ~ In k (keys m).
Proof.
  unfold has. rewrite <- get_none_not_in.
  destruct (get k m); split; congruence.
Qed.

(** A new key goes to the end. *)
Lemma set_fresh {V : Type} (k : string) (v : V) (m : t V) :
  ~ In k (keys m) -> set k v m = (m ++ [(k, v)])%list.
Proof.
  induction m as [|[k' v'] m IH]; simpl; intros H; auto.
  destruct (String.eqb_spec k' k).
  - exfalso. apply H. now left.
  - rewrite IH; auto.
Qed.

Lemma keys_set {V : Type} (k : string) (v : V) (m : t V) :
  In k (keys m) -> keys (set k v m) = keys m.
Proof.
  induction m as [|[k' v'] m IH]; simpl; intros H; [tauto|].
  destruct (String.eqb_spec k' k); simpl; auto.
  f_equal. apply IH. destruct H; congruence.
Qed.

Lemma wf_empty {V : Type} : wf (@empty V).
Proof. constructor. Qed.

Lemma wf_set {V : Type} (k : string) (v : V) (m : t V) :
  wf m -> wf (set k v m).
Proof.
  unfold wf. intros H.
  destruct (in_dec string_dec k (keys m)) as [Hin | Hout].
  - now rewrite keys_set.
  - rewrite set_fresh by assumption. unfold keys. rewrite map_app. simpl.
    apply NoDup_app; [assumption | repeat constructor; simpl; tauto |].
    intros x Hx [Hy | []]. subst x. now apply Hout.
Qed.

Lemma keys_delete_incl {V : Type} (k x : string) (m : t V) :
  In x (keys (delete k m)) -> In x (keys m).
Proof.
  induction m as [|[k' v'] m IH]; simpl; auto.
  destruct (String.eqb k' k); simpl; intuition.
Qed.

Lemma wf_delete {V : Type} (k : string) (m : t V) :
  wf m -> wf (delete k m).
Proof.
  unfold wf. induction m as [|[k' v'] m IH]; simpl; intros H; auto.
  inversion H; subst.
  destruct (String.eqb k' k); simpl; auto.
  constructor; auto. intros Hin. now apply keys_delete_incl in Hin.
Qed.




End JsMapFacts.

(** ** Splitting names *)

Lemma split_cut_first (sep : ascii) (s : string) :
  Js.split sep s =
  fst (Js.cut_first sep s) ::
    match snd (Js.cut_first sep s) with
    | None => []
    | Some rest => Js.split sep rest
    end.
Proof.
  induction s as [|c rest IH]; simpl; auto.
  destruct (Ascii.eqb c sep); simpl; auto.
  rewrite IH. destruct (Js.cut_first sep rest) as [before after]; simpl.
  reflexivity.
Qed.

(** The first two pieces of [name.split(".", 2)]: the text before the first
    separator, and the text between the first and the second one. *)
Lemma split_limit_server (name : string) :
  nth_error (Js.split_limit "." 2 name) 0 = Some (fst (Js.cut_first "." name)).
Proof.
  unfold Js.split_limit. rewrite split_cut_first. reflexivity.
Qed.

Lemma split_limit_tool (name : string) :
  nth_error (Js.split_limit "." 2 name) 1 =
  match snd (Js.cut_first "." name) with
  | None => None
  | Some rest => Some (fst (Js.cut_first "." rest))
  end.
Proof.
  unfold Js.split_limit. rewrite split_cut_first.
  destruct (snd (Js.cut_first "." name)) as [rest|]; simpl; auto.
  rewrite split_cut_first. reflexivity.
Qed.

(** ** [executeToolCall], case by case *)

Lemma executeToolCall_off (e : Env) (s : State) (toolCall : MCPToolCall) :
  isEnabled (this s) = false ->
  executeToolCall toolCall e s = (Returned (failed toolCall error_disabled), s).
Proof.
  unfold isEnabled, executeToolCall, bind, gets, ret. intros H.
  destruct (enabled (this s)); simpl in *; auto.
  destruct (JsMap.size (mcpServers (this s))); simpl in *; [auto | discriminate].
Qed.

Lemma executeToolCall_on (e : Env) (s : State) (toolCall : MCPToolCall) :
  isEnabled (this s) = true ->
  executeToolCall toolCall e s =
  let parts := Js.split_limit "." 2 (call_name toolCall) in
  let serverName := nth_error parts 0 in
  let toolName := nth_error parts 1 in
  if Js.falsy serverName || Js.falsy toolName then
    (Returned (failed toolCall (error_invalid_name (call_name toolCall))), s)
  else
    match JsMap.get (Js.value serverName) (clients (this s)) with
    | None => (Returned (failed toolCall (error_not_found (Js.value serverName))), s)
    | Some client =>
        let body := {| body_id := call_id toolCall; body_name := Js.value toolName;
                       body_arguments := call_arguments toolCall |} in
        match execute_reply e client body with
        | Data data => (Returned data, sent (PostExecute client body) s)
        | Failure msg =>
            (Returned (failed toolCall (error_executing msg)),
             sent (PostExecute client body) s)
        end
    end.
Proof.
  unfold isEnabled, executeToolCall, bind, gets, ret. intros H.
  destruct (enabled (this s)); simpl in *; [|discriminate].
  destruct (JsMap.size (mcpServers (this s))); simpl in *; [discriminate|].
  destruct (Js.falsy _ || Js.falsy _); auto.
  destruct (JsMap.get _ _) as [client|]; auto.
  unfold try_catch, client_post_execute, bind, modify_world, ask, ret, throw, sent.
  simpl. destruct (execute_reply e client _); reflexivity.
Qed.

Lemma isEnabled_false (t : MCPClient) :
  isEnabled t = false <-> enabled t = false \/ JsMap.size (mcpServers t) = 0%nat.
Proof.
  unfold isEnabled. destruct (enabled t); simpl.
  - destruct (JsMap.size (mcpServers t)); simpl; split; auto.
    intros [H | H]; discriminate.
  - tauto.
Qed.

Lemma isEnabled_true (t : MCPClient) :
  isEnabled t = true <-> enabled t = true /\ (0 < JsMap.size (mcpServers t))%nat.
Proof.
  unfold isEnabled. destruct (enabled t); simpl.
  - rewrite Nat.ltb_lt. tauto.
  - split; [discriminate | intros [H _]; discriminate].
Qed.

Lemma error_disabled_not_invalid (name : string) :
  error_disabled <> error_invalid_name name.
Proof. unfold error_disabled, error_invalid_name. simpl. discriminate. Qed.

Lemma malformed_name_falsy (name : string) :
  malformed_name name = true ->
  let parts := Js.split_limit "." 2 name in
  Js.falsy (nth_error parts 0) || Js.falsy (nth_error parts 1) = true.
Proof.
  unfold malformed_name. intros H. cbv zeta.
  rewrite split_limit_server, split_limit_tool.
  destruct (Js.cut_first "." name) as [server [local|]]; simpl in *.
  - destruct server; simpl in *; auto.
    destruct local; simpl in *; [auto | discriminate].
  - apply orb_true_r.
Qed.

Lemma malformed_name_run
      (e : Env) (s : State) (toolCall : MCPToolCall) :
  malformed_name (call_name toolCall) = true ->
  executeToolCall toolCall e s =
    (Returned (failed toolCall
                 (if isEnabled (this s)
                  then error_invalid_name (call_name toolCall)
                  else error_disabled)), s).
Proof.
  intros H. destruct (isEnabled (this s)) eqn:En.
  - rewrite executeToolCall_on by assumption. cbv zeta.
    apply malformed_name_falsy in H. cbv zeta in H. now rewrite H.
  - now apply executeToolCall_off.
Qed.

(** ** The router: [executeToolCall] *)

(** C10. While the client is disabled or no server is registered, every
    request, also one with a malformed name, gets the generic failure
    "MCP client is disabled or no servers are running" and nothing else
    happens; a result carrying the invalid-name failure therefore shows that
    the client is enabled and at least one server is registered. *)
Theorem executeToolCall_generic_failure_first :
  forall (e : Env) (s : State) (toolCall : MCPToolCall),
    (enabled (this s) = false \/ JsMap.size (mcpServers (this s)) = 0%nat ->
     executeToolCall toolCall e s =
       (Returned {| result_id := call_id toolCall; result_result := "";
                    result_error := Some error_disabled |}, s)) /\
    (forall r s',
        executeToolCall toolCall e s = (Returned r, s') ->
        result_error r = Some (error_invalid_name (call_name toolCall)) ->
        enabled (this s) = true /\ (0 < JsMap.size (mcpServers (this s)))%nat).
Proof.
  intros e s toolCall. split.
  - intros H. apply isEnabled_false in H. now apply executeToolCall_off.
  - intros r s' Hrun Herr. apply isEnabled_true.
    destruct (isEnabled (this s)) eqn:E; auto.
    rewrite executeToolCall_off in Hrun by assumption.
    injection Hrun as Hr _. subst r.
    unfold failed in Herr. cbn [result_error] in Herr.
    exfalso. apply (error_disabled_not_invalid (call_name toolCall)).
    congruence.
Qed.

Lemma executeToolCall_generic_failure_first_witness :
  JsMap.size (mcpServers (this fresh_state)) = 0%nat /\
  executeToolCall call_noSeparator quiet_env fresh_state =
    (Returned {| result_id := "1"; result_result := "";
                 result_error := Some error_disabled |}, fresh_state) /\
  (enabled (this two_running) = true /\
   (0 < JsMap.size (mcpServers (this two_running)))%nat).
Proof.
  split; [reflexivity|]. split.
  - apply (proj1 (executeToolCall_generic_failure_first
                    quiet_env fresh_state call_noSeparator)).
    right. reflexivity.
  - apply (proj2 (executeToolCall_generic_failure_first
                    quiet_env two_running call_noSeparator)
             (failed call_noSeparator (error_invalid_name "noSeparator"))
             two_running).
    + apply malformed_name_run. reflexivity.
    + reflexivity.
Defined.

(** C4, as stated, fails: with no server registered the request named
    "noSeparator" gets the generic failure, not the invalid-name one. *)
Lemma malformed_name_without_servers :
  malformed_name (call_name call_noSeparator) = true /\
  fst (executeToolCall call_noSeparator quiet_env fresh_state) =
    Returned (failed call_noSeparator error_disabled) /\
  fst (executeToolCall call_noSeparator quiet_env fresh_state) <>
    Returned (failed call_noSeparator (error_invalid_name "noSeparator")).
Proof.
  split; [reflexivity|]. split; [reflexivity|].
  vm_compute. discriminate.
Qed.

(** C4, amended. A request whose name has no separator, or has an empty
    text before or after the first separator, never reaches the network and
    changes nothing; it gets the invalid-name failure when the client is
    enabled and a server is registered, and the generic failure otherwise. *)
Theorem executeToolCall_malformed_name :
  forall (e : Env) (s : State) (toolCall : MCPToolCall),
    malformed_name (call_name toolCall) = true ->
    executeToolCall toolCall e s =
      (Returned (failed toolCall
                   (if isEnabled (this s)
                    then error_invalid_name (call_name toolCall)
                    else error_disabled)), s)
    /\ requests (world (snd (executeToolCall toolCall e s))) = requests (world s).
Proof.
  intros e s toolCall H.
  rewrite (malformed_name_run e s toolCall H).
  split; reflexivity.
Qed.

Lemma executeToolCall_malformed_name_witness :
  malformed_name (call_name call_noSeparator) = true /\
  executeToolCall call_noSeparator quiet_env two_running =
    (Returned (failed call_noSeparator (error_invalid_name "noSeparator")),
     two_running).
Proof.
  split; [reflexivity|].
  apply (proj1 (executeToolCall_malformed_name
                  quiet_env two_running call_noSeparator eq_refl)).
Defined.

(** C1. The catalogue lists the tool "b.c" of server "A" as "A.b.c", but
    invoking "A.b.c" forwards the local name "b": [split(".", 2)] keeps the
    first two of all the pieces, and the text after the second separator is
    lost. *)
Theorem executeToolCall_drops_after_second_separator :
  tool_name (namespaced "A" {| tool_name := "b.c"; tool_description := "";
                               tool_parameters := {| param_type := "object";
                                                     param_properties := [];
                                                     param_required := None |} |})
    = call_name call_A_b_c /\
  Js.split_limit "." 2 (call_name call_A_b_c) = ["A"; "b"] /\
  requests (world (snd (executeToolCall call_A_b_c quiet_env two_running))) =
    [PostExecute (axios_create "http://localhost:8500" 10000)
       {| body_id := "1"; body_name := "b"; body_arguments := "{}" |}].
Proof.
  split; [reflexivity|]. split; [reflexivity|]. vm_compute. reflexivity.
Qed.

(** C2, as stated, fails: a response whose id is "2" to the request with
    id "1" is returned as it is, with no failure in it. *)
Lemma mismatched_id_is_returned :
  exists r,
    fst (executeToolCall call_A_x other_id_env two_running) = Returned r /\
    result_id r <> call_id call_A_x /\
    result_error r = None.
Proof.
  exists {| result_id := "2"; result_result := "done"; result_error := None |}.
  split; [vm_compute; reflexivity|]. split; [discriminate | reflexivity].
Qed.

(** C2, amended. When the request is forwarded and the server responds,
    [executeToolCall] returns the data of the response as it is, whatever
    id it carries: the id is not compared with the one of the request. *)
Theorem executeToolCall_returns_response_data :
  forall (e : Env) (s : State) (toolCall : MCPToolCall)
         (serverName toolName : string) (client : AxiosInstance)
         (data : MCPToolResult),
    isEnabled (this s) = true ->
    Js.split_limit "." 2 (call_name toolCall) = [serverName; toolName] ->
    Js.falsy (Some serverName) = false ->
    Js.falsy (Some toolName) = false ->
    JsMap.get serverName (clients (this s)) = Some client ->
    execute_reply e client
      {| body_id := call_id toolCall; body_name := toolName;
         body_arguments := call_arguments toolCall |} = Data data ->
    executeToolCall toolCall e s =
      (Returned data,
       sent (PostExecute client
               {| body_id := call_id toolCall; body_name := toolName;
                  body_arguments := call_arguments toolCall |}) s).
Proof.
  intros e s toolCall serverName toolName client data Hon Hsplit Hs Ht Hc Hr.
  rewrite executeToolCall_on by assumption. cbv zeta.
  rewrite Hsplit. simpl nth_error. rewrite Hs, Ht. simpl.
  rewrite Hc, Hr. reflexivity.
Qed.

Lemma executeToolCall_returns_response_data_witness :
  executeToolCall call_A_x other_id_env two_running =
    (Returned {| result_id := "2"; result_result := "done"; result_error := None |},
     sent (PostExecute (axios_create "http://localhost:8500" 10000)
             {| body_id := "1"; body_name := "x"; body_arguments := "{}" |})
          two_running).
Proof.
  apply (executeToolCall_returns_response_data
           other_id_env two_running call_A_x "A" "x"
           (axios_create "http://localhost:8500" 10000)); reflexivity.
Defined.

(** ** The exit handler *)

Lemma on_exit_removes_record (e : Env) (s : State) (name : string) :
  JsMap.get name (mcpServers (this (snd (on_exit name e s)))) = None.
Proof. simpl. apply JsMapFacts.get_delete_same. Qed.

Lemma on_exit_keeps_other_records (e : Env) (s : State) (name other : string) :
  name <> other ->
  JsMap.get other (mcpServers (this (snd (on_exit name e s)))) =
  JsMap.get other (mcpServers (this s)).
Proof. intros H. simpl. now apply JsMapFacts.get_delete_other. Qed.

(** The handler leaves the map of clients as it is. *)
Lemma on_exit_keeps_clients (e : Env) (s : State) (name : string) :
  clients (this (snd (on_exit name e s))) = clients (this s).
Proof. reflexivity. Qed.

(** C3. After the child process of "A" has exited its record is gone from
    [mcpServers], but its client is still in [clients]: invoking "A.x"
    posts the request to the endpoint of "A" and reports the error of the
    transport, not "MCP server not found: A". *)
Theorem invoke_after_exit_is_forwarded :
  JsMap.get "A" (mcpServers (this after_exit_A)) = None /\
  JsMap.get "A" (clients (this after_exit_A)) =
    Some (axios_create "http://localhost:8500" 10000) /\
  executeToolCall call_A_x quiet_env after_exit_A =
    (Returned (failed call_A_x (error_executing "connect ECONNREFUSED")),
     sent (PostExecute (axios_create "http://localhost:8500" 10000)
             {| body_id := "1"; body_name := "x"; body_arguments := "{}" |})
          after_exit_A) /\
  fst (executeToolCall call_A_x quiet_env after_exit_A) <>
    Returned (failed call_A_x (error_not_found "A")).
Proof.
  split; [reflexivity|]. split; [reflexivity|].
  split; [vm_compute; reflexivity | vm_compute; discriminate].
Qed.

(** ** Launching servers: [startServers] *)

Lemma launch_run (e : Env) (s : State) (name : string) (serverConfig : ServerConfig) :
  let r := random_src e (random_calls (world s)) in
  let port := (8000 + Qfloor (r * inject_Z 1000))%Z in
  let url := "http://localhost:" ++ Js.toString port in
  let w := count_uuid (count_random (world s)) in
  launch name serverConfig e s =
  if spawn_fails e (command serverConfig) then
    (Returned tt, {| this := this s; world := w |})
  else
    (Returned tt,
     {| this :=
          set_clients
            (JsMap.set name (axios_create url 10000) (clients (this s)))
            (set_mcpServers
               (JsMap.set name
                  {| server_id := uuid_src e (uuid_calls (world s));
                     server_url := url;
                     server_process := Some {| pid := List.length (spawned (world s)) |} |}
                  (mcpServers (this s)))
               (this s));
        world :=
          record_spawn
            {| spawn_command := command serverConfig;
               spawn_args := (args serverConfig ++ ["--port"; Js.toString port])%list |}
            w |}).
Proof.
  cbv zeta.
  unfold launch, try_catch, bind, Math_random, randomUUID, spawn, bind,
    gets_world, ask, modify_world, modify_this, ret, throw.
  simpl. destruct (spawn_fails e (command serverConfig)); reflexivity.
Qed.

Lemma saveServerState_run (e : Env) (s : State) :
  saveServerState e s =
  (Returned tt,
   if write_fails e (serverStateFile (this s)) then s
   else {| this := this s;
           world := write_file (serverStateFile (this s))
                      (StateJson (state_of (mcpServers (this s)))) (world s) |}).
Proof.
  unfold saveServerState, try_catch, bind, gets, writeFileSync, bind, ask,
    modify_world, throw, ret, JSON_stringify.
  simpl. destruct (write_fails e (serverStateFile (this s))); reflexivity.
Qed.


(** The loop of [startServers] always runs to its end. *)
Lemma launches_return (e : Env) (servers : list (string * ServerConfig)) :
  forall s : State, exists s',
    for_of servers (fun '(name, serverConfig) => launch name serverConfig) e s
      = (Returned tt, s').
Proof.
  induction servers as [|[name serverConfig] servers IH]; intros s; simpl.
  - now exists s.
  - unfold bind. rewrite launch_run. cbv zeta.
    destruct (spawn_fails e (command serverConfig)); apply IH.
Qed.





(** ** The catalogue: [refreshTools] *)

Lemma this_sent_all (rs : list Request) (s : State) :
  this (sent_all rs s) = this s.
Proof.
  revert s. induction rs as [|r rs IH]; intros s; simpl; auto.
  unfold sent_all in IH. now rewrite IH.
Qed.

Lemma requests_sent_all (rs : list Request) (s : State) :
  requests (world (sent_all rs s)) = (requests (world s) ++ rs)%list.
Proof.
  revert s. induction rs as [|r rs IH]; intros s; simpl.
  - now rewrite app_nil_r.
  - unfold sent_all in IH. rewrite IH. simpl. now rewrite <- app_assoc.
Qed.

Lemma poll_run (e : Env) (cs : list (string * AxiosInstance)) :
  forall (allTools : list MCPTool) (s : State),
    poll cs allTools e s =
    (Returned (allTools ++ flat_map (contribution e) cs)%list,
     sent_all (listing_requests cs) s).
Proof.
  induction cs as [|[name client] cs IH]; intros allTools s; simpl.
  - now rewrite app_nil_r.
  - unfold bind, try_catch, client_get_tools, bind, modify_world, ask, ret, throw.
    unfold contribution at 1. simpl.
    destruct (tools_reply e client) as [serverTools|msg]; simpl;
      rewrite IH; [rewrite <- app_assoc|]; reflexivity.
Qed.

Lemma refreshTools_off (e : Env) (s : State) :
  isEnabled (this s) = false ->
  refreshTools e s = (Returned [], s).
Proof.
  unfold isEnabled, refreshTools, bind, gets, ret. intros H.
  destruct (enabled (this s)); simpl in *; auto.
  destruct (JsMap.size (mcpServers (this s))); simpl in *; [auto | discriminate].
Qed.

Lemma refreshTools_on (e : Env) (s : State) :
  isEnabled (this s) = true ->
  let cs := JsMap.entries (clients (this s)) in
  let allTools := flat_map (contribution e) cs in
  refreshTools e s =
  (Returned allTools,
   {| this := set_tools allTools (this s);
      world := world (sent_all (listing_requests cs) s) |}).
Proof.
  unfold isEnabled, refreshTools, bind, gets, ret. intros H.
  destruct (enabled (this s)); simpl in *; [|discriminate].
  destruct (JsMap.size (mcpServers (this s))); simpl in *; [discriminate|].
  rewrite poll_run. unfold modify_this. simpl. now rewrite this_sent_all.
Qed.

Lemma length_append (a b : string) :
  String.length (a ++ b) = (String.length a + String.length b)%nat.
Proof. induction a as [|c a IH]; simpl; auto. Qed.

Lemma append_same_suffix (a b suffix : string) :
  a ++ suffix = b ++ suffix -> a = b.
Proof.
  revert b. induction a as [|c a IH]; intros [|d b] H; simpl in *; auto.
  - apply (f_equal String.length) in H. simpl in H.
    rewrite length_append in H. lia.
  - apply (f_equal String.length) in H. simpl in H.
    rewrite length_append in H. lia.
  - injection H as Hc Hrest. f_equal; auto.
Qed.

Lemma in_contribution (e : Env) (cs : list (string * AxiosInstance))
      (name : string) (client : AxiosInstance) (serverTools : list MCPTool)
      (tool : MCPTool) :
  In (name, client) cs ->
  tools_reply e client = Data serverTools ->
  In tool serverTools ->
  In (namespaced name tool) (flat_map (contribution e) cs).
Proof.
  intros Hin Hreply Htool. apply in_flat_map. exists (name, client).
  split; [assumption|]. unfold contribution. simpl. rewrite Hreply.
  now apply in_map.
Qed.

(** C6. Two registered servers [A] and [B] that both list a tool with the
    same local name: the refresh holds the descriptor of each, named
    [A.x] and [B.x] and described with the prefixes "[A] " and "[B] ", and
    the two names differ; when [A] and [B] are the whole registry the
    catalogue is the tools of [A] followed by the tools of [B], each
    prefixed, none dropped and none merged. *)
Theorem refreshTools_namespaces_by_server :
  forall (e : Env) (s : State) (A B : string) (cA cB : AxiosInstance)
         (tsA tsB : list MCPTool),
    isEnabled (this s) = true ->
    A <> B ->
    tools_reply e cA = Data tsA ->
    tools_reply e cB = Data tsB ->
    (In (A, cA) (JsMap.entries (clients (this s))) ->
     In (B, cB) (JsMap.entries (clients (this s))) ->
     forall (x : string) (tA tB : MCPTool),
       In tA tsA -> tool_name tA = x ->
       In tB tsB -> tool_name tB = x ->
       exists catalogue,
         fst (refreshTools e s) = Returned catalogue /\
         getTools (this (snd (refreshTools e s))) = catalogue /\
         In {| tool_name := A ++ "." ++ x;
               tool_description := "[" ++ A ++ "] " ++ tool_description tA;
               tool_parameters := tool_parameters tA |} catalogue /\
         In {| tool_name := B ++ "." ++ x;
               tool_description := "[" ++ B ++ "] " ++ tool_description tB;
               tool_parameters := tool_parameters tB |} catalogue /\
         A ++ "." ++ x <> B ++ "." ++ x) /\
    (JsMap.entries (clients (this s)) = [(A, cA); (B, cB)] ->
     fst (refreshTools e s) =
       Returned (map (namespaced A) tsA ++ map (namespaced B) tsB)%list /\
     List.length (map (namespaced A) tsA ++ map (namespaced B) tsB)%list =
       (List.length tsA + List.length tsB)%nat).
Proof.
  intros e s A B cA cB tsA tsB Hon Hne HA HB.
  rewrite (refreshTools_on e s Hon). cbv zeta. simpl fst. simpl snd. split.
  - intros HinA HinB x tA tB HtA HxA HtB HxB.
    eexists. split; [reflexivity|]. split; [reflexivity|].
    subst x. split; [|split].
    + apply (in_contribution e _ A cA tsA tA HinA HA HtA).
    + rewrite <- HxB. apply (in_contribution e _ B cB tsB tB HinB HB HtB).
    + intros H. apply Hne. now apply append_same_suffix in H.
  - intros Hcs. rewrite Hcs. simpl. unfold contribution. simpl.
    rewrite HA, HB, app_nil_r. split; [reflexivity|].
    now rewrite length_app, !length_map.
Qed.

Lemma refreshTools_namespaces_by_server_witness :
  fst (refreshTools listing_env two_running) =
    Returned [ {| tool_name := "A.x"; tool_description := "[A] does x";
                  tool_parameters := tool_parameters tool_x |};
               {| tool_name := "B.x"; tool_description := "[B] does x";
                  tool_parameters := tool_parameters tool_x |} ] /\
  exists catalogue,
    getTools (this (snd (refreshTools listing_env two_running))) = catalogue /\
    In {| tool_name := "A.x"; tool_description := "[A] does x";
          tool_parameters := tool_parameters tool_x |} catalogue /\
    In {| tool_name := "B.x"; tool_description := "[B] does x";
          tool_parameters := tool_parameters tool_x |} catalogue.
Proof.
  assert (Hne : "A" <> "B") by discriminate.
  destruct (refreshTools_namespaces_by_server
              listing_env two_running "A" "B"
              (axios_create "http://localhost:8500" 10000)
              (axios_create "http://localhost:8750" 10000)
              [tool_x] [tool_x] eq_refl Hne eq_refl eq_refl) as [Hany Hboth].
  split.
  - apply Hboth. vm_compute. reflexivity.
  - destruct (Hany (or_introl eq_refl) (or_intror (or_introl eq_refl))
                   "x" tool_x tool_x (or_introl eq_refl) eq_refl
                   (or_introl eq_refl) eq_refl)
      as (catalogue & _ & Hget & HA & HB & _).
    exists catalogue. auto.
Defined.

(** C7, as stated, fails for a refresh made while no server is registered:
    the only server has exited, the refresh returns an empty list without
    asking anyone, and the catalogue of the previous refresh stays in
    place; this is so whether the endpoint still answers or not. *)
Lemma refresh_without_servers_keeps_catalogue :
  getTools (this listed_then_exited) = [namespaced "A" tool_x] /\
  refreshTools quiet_env listed_then_exited = (Returned [], listed_then_exited) /\
  refreshTools listing_env listed_then_exited = (Returned [], listed_then_exited) /\
  getTools (this (snd (refreshTools quiet_env listed_then_exited))) <> [].
Proof.
  split; [vm_compute; reflexivity|].
  split; [apply refreshTools_off; reflexivity|].
  split; [apply refreshTools_off; reflexivity|].
  rewrite refreshTools_off by reflexivity. vm_compute. discriminate.
Qed.

(** C7, amended. A refresh made while the client is enabled and a server
    is registered asks every client once; a server whose request fails adds
    nothing and the tools of the servers that answer are all collected; the
    result becomes the catalogue whatever the previous catalogue was.  A
    refresh made while the client is disabled or no server is registered
    returns an empty list and changes nothing. *)
Theorem refreshTools_isolates_failures_and_replaces :
  forall (e : Env) (s : State),
    (isEnabled (this s) = true ->
     exists catalogue,
       fst (refreshTools e s) = Returned catalogue /\
       getTools (this (snd (refreshTools e s))) = catalogue /\
       (forall previous,
           getTools (this (snd (refreshTools e
              {| this := set_tools previous (this s); world := world s |})))
           = catalogue) /\
       (forall d, In d catalogue <->
           exists name client serverTools tool,
             In (name, client) (JsMap.entries (clients (this s))) /\
             tools_reply e client = Data serverTools /\
             In tool serverTools /\ d = namespaced name tool) /\
       (forall before name client after msg,
           JsMap.entries (clients (this s)) = (before ++ (name, client) :: after)%list ->
           tools_reply e client = Failure msg ->
           catalogue = flat_map (contribution e) (before ++ after)%list) /\
       requests (world (snd (refreshTools e s))) =
         (requests (world s) ++ listing_requests (JsMap.entries (clients (this s))))%list)
    /\
    (isEnabled (this s) = false -> refreshTools e s = (Returned [], s)).
Proof.
  intros e s. split; [|apply refreshTools_off].
  intros Hon. exists (flat_map (contribution e) (JsMap.entries (clients (this s)))).
  rewrite (refreshTools_on e s Hon). cbv zeta. simpl fst. simpl snd.
  split; [reflexivity|]. split; [reflexivity|]. split; [|split; [|split]].
  - intros previous. rewrite refreshTools_on by exact Hon. reflexivity.
  - intros d. rewrite in_flat_map. split.
    + intros [[name client] [Hin Hd]]. unfold contribution in Hd. simpl in Hd.
      destruct (tools_reply e client) as [serverTools|msg] eqn:Hr; [|contradiction].
      apply in_map_iff in Hd. destruct Hd as [tool [Hd Htool]].
      exists name, client, serverTools, tool. auto.
    + intros (name & client & serverTools & tool & Hin & Hr & Htool & Hd).
      exists (name, client). split; [assumption|].
      unfold contribution. simpl. rewrite Hr, Hd. now apply in_map.
  - intros before name client after msg Hcs Hr. rewrite Hcs.
    rewrite !flat_map_app. simpl. unfold contribution at 2. simpl.
    now rewrite Hr.
  - simpl. apply requests_sent_all.
Qed.

Lemma refreshTools_isolates_failures_and_replaces_witness :
  (exists catalogue,
      fst (refreshTools half_env two_running) = Returned catalogue /\
      getTools (this (snd (refreshTools half_env two_running))) = catalogue /\
      catalogue = [namespaced "B" tool_x]) /\
  refreshTools half_env fresh_state = (Returned [], fresh_state).
Proof.
  split.
  - destruct (proj1 (refreshTools_isolates_failures_and_replaces
                       half_env two_running) eq_refl)
      as (catalogue & Hret & Hget & _).
    exists catalogue. split; [assumption|]. split; [assumption|].
    rewrite <- Hget. vm_compute. reflexivity.
  - apply (proj2 (refreshTools_isolates_failures_and_replaces
                    half_env fresh_state)).
    reflexivity.
Defined.

(** ** Persistence: [saveServerState] and [loadServerState] *)



Lemma load_loop_run (e : Env) (entries : list (string * SavedInfo)) :
  forall s : State,
    for_of entries (fun '(name, info) =>
      known <- gets (fun t => JsMap.has name (mcpServers t)) ;;
      if negb known then
        modify_this (fun t => set_mcpServers
          (JsMap.set name {| server_id := saved_id info;
                             server_url := saved_url info;
                             server_process := None |} (mcpServers t)) t) ;;
        modify_this (fun t => set_clients
          (JsMap.set name (axios_create (saved_url info) 10000) (clients t)) t)
      else ret tt) e s
    = (Returned tt, fold_left register_discovered entries s).
Proof.
  induction entries as [|[name info] entries IH]; intros s; simpl; auto.
  unfold bind at 1. unfold bind at 1. unfold gets at 1.
  unfold register_discovered at 2. simpl.
  destruct (JsMap.has name (mcpServers (this s))); simpl.
  - apply IH.
  - unfold bind, modify_this. simpl. apply IH.
Qed.

Lemma loadServerState_run (e : Env) (s : State) :
  loadServerState e s =
  (Returned tt,
   match files (world s) (serverStateFile (this s)) with
   | Some (StateJson state) => load_entries state s
   | Some (OtherText _) => s
   | None => s
   end).
Proof.
  unfold loadServerState, try_catch.
  unfold bind at 1. unfold gets at 1.
  unfold bind at 1. unfold existsSync, gets_world.
  destruct (files (world s) (serverStateFile (this s))) as [text|] eqn:Hf;
    [|reflexivity].
  unfold bind at 1. unfold readFileSync. unfold bind at 1. unfold gets_world.
  rewrite Hf. unfold ret at 1.
  destruct text as [state|raw]; simpl.
  - unfold bind at 1. unfold ret at 1. rewrite load_loop_run. reflexivity.
  - reflexivity.
Qed.







(** ** Shutting down: [cleanup] *)

Lemma this_killed (ps : list ChildProcess) (s : State) :
  this (killed ps s) = this s.
Proof.
  revert s. induction ps as [|p ps IH]; intros s; simpl; auto.
  unfold killed in IH. now rewrite IH.
Qed.

Lemma files_killed (ps : list ChildProcess) (s : State) :
  files (world (killed ps s)) = files (world s).
Proof.
  revert s. induction ps as [|p ps IH]; intros s; simpl; auto.
  unfold killed in IH. now rewrite IH.
Qed.

Lemma kill_calls_killed (ps : list ChildProcess) (s : State) :
  kill_calls (world (killed ps s)) = (kill_calls (world s) ++ ps)%list.
Proof.
  revert s. induction ps as [|p ps IH]; intros s; simpl.
  - now rewrite app_nil_r.
  - unfold killed in IH. rewrite IH. simpl. now rewrite <- app_assoc.
Qed.

(** The loop of [cleanup] calls [kill] on every owned process, whether or
    not an earlier call threw. *)
Lemma kill_loop_run (e : Env) (servers : list (string * MCPServerInfo)) :
  forall s : State,
    for_of servers (fun '(name, info) =>
      match server_process info with
      | Some process => try_catch (kill process) (fun _ => ret tt)
      | None => ret tt
      end) e s
    = (Returned tt, killed (owned_processes servers) s).
Proof.
  induction servers as [|[name info] servers IH]; intros s; simpl; auto.
  unfold bind at 1. unfold owned_processes. simpl.
  destruct (server_process info) as [process|]; simpl.
  - unfold try_catch, kill, bind, modify_world, ask, throw, ret. simpl.
    destruct (kill_fails e process); apply IH.
  - apply IH.
Qed.

Lemma cleanup_run (e : Env) (s : State) :
  cleanup e s =
  (Returned tt,
   let s1 := killed (owned_processes (mcpServers (this s))) s in
   match files (world s) (serverStateFile (this s)) with
   | Some _ =>
       if write_fails e (serverStateFile (this s)) then s1
       else {| this := this s1;
               world := write_file (serverStateFile (this s))
                          (StateJson JsMap.empty) (world s1) |}
   | None => s1
   end).
Proof.
  unfold cleanup. unfold bind at 1. unfold gets at 1.
  unfold bind at 1. rewrite kill_loop_run. cbv zeta.
  unfold try_catch, bind, gets, existsSync, gets_world, writeFileSync, bind,
    ask, modify_world, throw, ret.
  rewrite this_killed, files_killed.
  destruct (files (world s) (serverStateFile (this s))); [|reflexivity].
  destruct (write_fails e (serverStateFile (this s))); reflexivity.
Qed.

(** C9. [cleanup] returns normally, the first time and the second time;
    the first call has called [kill] on every owned process of the
    registry, whichever of these calls threw; and, the state file being
    writable, after either call the file is absent as before or holds the
    empty record set, so that an instance loading it finds no server. *)
Theorem cleanup_twice :
  forall (e : Env) (s : State),
  exists s1 s2,
    cleanup e s = (Returned tt, s1) /\
    cleanup e s1 = (Returned tt, s2) /\
    kill_calls (world s1) =
      (kill_calls (world s) ++ owned_processes (mcpServers (this s)))%list /\
    (write_fails e (serverStateFile (this s)) = false ->
     forall s', s' = s1 \/ s' = s2 ->
       files (world s') (serverStateFile (this s)) =
         match files (world s) (serverStateFile (this s)) with
         | Some _ => Some (StateJson JsMap.empty)
         | None => None
         end /\
       mcpServers
         (this (snd (loadServerState e
                       {| this := new_MCPClient (serverStateFile (this s));
                          world := world s' |}))) = JsMap.empty).
Proof.
  intros e s.
  pose (s1 := snd (cleanup e s)). pose (s2 := snd (cleanup e s1)).
  assert (Hs1 : snd (cleanup e s) = s1) by reflexivity.
  assert (Hs2 : snd (cleanup e s1) = s2) by reflexivity.
  clearbody s1 s2.
  exists s1, s2.
  split; [rewrite <- Hs1, cleanup_run; reflexivity|].
  split; [rewrite <- Hs2, cleanup_run; reflexivity|].
  rewrite cleanup_run in Hs1, Hs2. cbv zeta in Hs1, Hs2. simpl snd in Hs1, Hs2.
  assert (Hthis : this s1 = this s).
  { subst s1. destruct (files (world s) _); [destruct (write_fails e _)|];
      simpl; apply this_killed. }
  split.
  - subst s1. destruct (files (world s) _); [destruct (write_fails e _)|];
      simpl; apply kill_calls_killed.
  - intros Hwrite.
    assert (Hf1 : files (world s1) (serverStateFile (this s)) =
                  match files (world s) (serverStateFile (this s)) with
                  | Some _ => Some (StateJson JsMap.empty)
                  | None => None
                  end).
    { subst s1. rewrite Hwrite.
      destruct (files (world s) (serverStateFile (this s))) eqn:Hf; simpl.
      - now rewrite String.eqb_refl.
      - now rewrite files_killed. }
    assert (Hf2 : files (world s2) (serverStateFile (this s)) =
                  files (world s1) (serverStateFile (this s))).
    { subst s2. rewrite Hthis, Hwrite, Hf1.
      destruct (files (world s) (serverStateFile (this s))) eqn:Hf; simpl.
      - now rewrite String.eqb_refl.
      - now rewrite files_killed. }
    intros s' Hs'.
    assert (Hf : files (world s') (serverStateFile (this s)) =
                 match files (world s) (serverStateFile (this s)) with
                 | Some _ => Some (StateJson JsMap.empty)
                 | None => None
                 end).
    { destruct Hs' as [-> | ->]; [exact Hf1 | now rewrite Hf2]. }
    split; [exact Hf|].
    rewrite loadServerState_run. simpl. rewrite Hf.
    destruct (files (world s) (serverStateFile (this s))); reflexivity.
Qed.

Lemma cleanup_twice_witness :
  exists s1 s2,
    cleanup unkillable_env two_running = (Returned tt, s1) /\
    cleanup unkillable_env s1 = (Returned tt, s2) /\
    kill_calls (world s1) = [ {| pid := 0 |}; {| pid := 1 |} ] /\
    files (world s1) "/work/.mcp-servers.json" = Some (StateJson JsMap.empty) /\
    files (world s2) "/work/.mcp-servers.json" = Some (StateJson JsMap.empty).
Proof.
  destruct (cleanup_twice unkillable_env two_running)
    as (s1 & s2 & H1 & H2 & Hk & Hfile).
  exists s1, s2. split; [assumption|]. split; [assumption|].
  split; [rewrite Hk; vm_compute; reflexivity|].
  split.
  - destruct (Hfile eq_refl s1 (or_introl eq_refl)) as [Hf _].
    etransitivity; [exact Hf | vm_compute; reflexivity].
  - destruct (Hfile eq_refl s2 (or_intror eq_refl)) as [Hf _].
    etransitivity; [exact Hf | vm_compute; reflexivity].
Defined.

(** ** Unique keys are kept by every method *)

Lemma launch_keeps_wf (e : Env) (s : State) (name : string) (serverConfig : ServerConfig) :
  JsMap.wf (mcpServers (this s)) ->
  JsMap.wf (mcpServers (this (snd (launch name serverConfig e s)))).
Proof.
  intros H. rewrite launch_run. cbv zeta.
  destruct (spawn_fails e (command serverConfig)); simpl; auto.
  now apply JsMapFacts.wf_set.
Qed.

Lemma on_exit_keeps_wf (e : Env) (s : State) (name : string) :
  JsMap.wf (mcpServers (this s)) ->
  JsMap.wf (mcpServers (this (snd (on_exit name e s)))).
Proof. intros H. simpl. now apply JsMapFacts.wf_delete. Qed.

Lemma load_entries_keeps_wf (entries : list (string * SavedInfo)) :
  forall s : State,
    JsMap.wf (mcpServers (this s)) ->
    JsMap.wf (mcpServers (this (fold_left register_discovered entries s))).
Proof.
  induction entries as [|[n i] entries IH]; intros s H; simpl; auto.
  apply IH. unfold register_discovered. simpl.
  destruct (JsMap.has n (mcpServers (this s))); simpl; auto.
  now apply JsMapFacts.wf_set.
Qed.

Lemma loadServerState_keeps_wf (e : Env) (s : State) :
  JsMap.wf (mcpServers (this s)) ->
  JsMap.wf (mcpServers (this (snd (loadServerState e s)))).
Proof.
  intros H. rewrite loadServerState_run. simpl.
  destruct (files (world s) (serverStateFile (this s))) as [[state|raw]|]; auto.
  now apply load_entries_keeps_wf.
Qed.

Lemma launches_keep_wf (e : Env) (servers : list (string * ServerConfig)) :
  forall s : State,
    JsMap.wf (mcpServers (this s)) ->
    JsMap.wf (mcpServers (this (snd
      (for_of servers (fun '(name, serverConfig) => launch name serverConfig) e s)))).
Proof.
  induction servers as [|[name serverConfig] servers IH]; intros s H; simpl; auto.
  unfold bind.
  pose proof (launch_keeps_wf e s name serverConfig H) as Hstep.
  rewrite launch_run in *. cbv zeta in *.
  destruct (spawn_fails e (command serverConfig)); apply IH; exact Hstep.
Qed.

Lemma startServers_keeps_wf (e : Env) (s : State) (config : MCPConfig) :
  JsMap.wf (mcpServers (this s)) ->
  JsMap.wf (mcpServers (this (snd (startServers config e s)))).
Proof.
  intros H. unfold startServers.
  destruct (config_mcpServers config) as [servers|]; auto.
  unfold bind.
  pose proof (launches_keep_wf e (JsMap.entries servers) s H) as Hloop.
  destruct (launches_return e (JsMap.entries servers) s) as [s' Hrun].
  rewrite Hrun in *. simpl in Hloop. rewrite saveServerState_run. simpl.
  destruct (write_fails e (serverStateFile (this s'))); exact Hloop.
Qed.

(** * Further properties of the class *)

Lemma getTool_found (t : MCPClient) (name : string) :
  hasTool name t = true ->
  exists found, getTool name t = Some found /\ tool_name found = name.
Proof.
  unfold hasTool, getTool. rewrite existsb_exists. intros [tool [Hin Hname]].
  destruct (find _ (tools t)) as [found|] eqn:Hfind.
  - exists found. split; [reflexivity|].
    apply find_some in Hfind. now apply String.eqb_eq.
  - exfalso. apply (find_none _ _ Hfind) in Hin. congruence.
Qed.

(** ** [hasTool], [getTool], [getOpenAITools] *)

(** X1. [hasTool] and [getTool] agree: a name has a tool exactly when
    [getTool] finds one; the tool found carries that name and is in the
    catalogue; nothing is found exactly when no tool of the catalogue has
    the name. *)
Theorem getTool_agrees_with_hasTool :
  forall (t : MCPClient) (name : string),
    (hasTool name t = true <-> exists tool, getTool name t = Some tool) /\
    (forall tool, getTool name t = Some tool ->
                  tool_name tool = name /\ In tool (getTools t)) /\
    (getTool name t = None <->
     forall tool, In tool (getTools t) -> tool_name tool <> name).
Proof.
  intros t name. unfold hasTool, getTool, getTools. split; [|split].
  - rewrite existsb_exists. split.
    + intros [tool [Hin Hname]].
      destruct (find _ (tools t)) as [found|] eqn:Hfind; eauto.
      exfalso. apply (find_none _ _ Hfind) in Hin. congruence.
    + intros [tool Hfind]. apply find_some in Hfind. eauto.
  - intros tool Hfind. apply find_some in Hfind. destruct Hfind as [Hin Hname].
    split; [now apply String.eqb_eq | assumption].
  - split.
    + intros Hfind tool Hin Hname.
      apply (find_none _ _ Hfind) in Hin. apply String.eqb_eq in Hname.
      congruence.
    + intros Hall. destruct (find _ (tools t)) as [found|] eqn:Hfind; auto.
      apply find_some in Hfind. destruct Hfind as [Hin Hname].
      apply String.eqb_eq in Hname. now apply Hall in Hin.
Qed.

Lemma getTool_agrees_with_hasTool_witness :
  hasTool "B.x" (this two_listed) = true /\
  tool_name (namespaced "B" tool_x) = "B.x" /\
  getTool "C.x" (this two_listed) = None.
Proof.
  destruct (getTool_agrees_with_hasTool (this two_listed) "B.x")
    as (Hhas & Hfound & _).
  destruct (getTool_agrees_with_hasTool (this two_listed) "C.x")
    as (_ & _ & Hnone).
  split; [|split].
  - apply Hhas. exists (namespaced "B" tool_x). reflexivity.
  - apply (Hfound (namespaced "B" tool_x)). reflexivity.
  - apply Hnone. intros tool Hin. vm_compute in Hin.
    destruct Hin as [<- | [<- | []]]; discriminate.
Defined.

(** X2. After a refresh made while the client is enabled and a server is
    registered, every tool listed by a server that answered is found under
    its qualified name [server.tool]: [hasTool] is true and [getTool] gives
    a tool of that name. *)
Theorem refreshTools_then_hasTool :
  forall (e : Env) (s : State) (name : string) (client : AxiosInstance)
         (serverTools : list MCPTool) (tool : MCPTool),
    isEnabled (this s) = true ->
    In (name, client) (JsMap.entries (clients (this s))) ->
    tools_reply e client = Data serverTools ->
    In tool serverTools ->
    let after := this (snd (refreshTools e s)) in
    hasTool (name ++ "." ++ tool_name tool) after = true /\
    exists found,
      getTool (name ++ "." ++ tool_name tool) after = Some found /\
      tool_name found = name ++ "." ++ tool_name tool.
Proof.
  intros e s name client serverTools tool Hon Hin Hreply Htool after.
  assert (Hhas : hasTool (name ++ "." ++ tool_name tool) after = true).
  { unfold after. rewrite (refreshTools_on e s Hon). cbv zeta.
    unfold hasTool. simpl. apply existsb_exists.
    exists (namespaced name tool). split.
    - now apply (in_contribution e _ name client serverTools tool).
    - simpl. apply String.eqb_refl. }
  split; [assumption|].
  destruct (getTool_found _ _ Hhas) as [found [Hfind Hname]]. eauto.
Qed.

Lemma refreshTools_then_hasTool_witness :
  hasTool "B.x" (this (snd (refreshTools half_env two_running))) = true.
Proof.
  apply (refreshTools_then_hasTool half_env two_running "B"
           (axios_create "http://localhost:8750" 10000) [tool_x] tool_x).
  - reflexivity.
  - vm_compute. right. left. reflexivity.
  - reflexivity.
  - left. reflexivity.
Defined.

(** X3. [getOpenAITools] exports the catalogue one for one: the names of
    the declarations are the names of the tools, in order; every
    declaration has the type "function"; and a name is exported exactly
    when [hasTool] holds for it. *)
Theorem getOpenAITools_exports_catalogue :
  forall (t : MCPClient),
    map (fun o => function_name (openai_function o)) (getOpenAITools t)
      = map tool_name (getTools t) /\
    Forall (fun o => openai_type o = "function") (getOpenAITools t) /\
    (forall name,
        hasTool name t = true <->
        exists o, In o (getOpenAITools t) /\
                  function_name (openai_function o) = name).
Proof.
  intros t. unfold getOpenAITools, getTools, hasTool. split; [|split].
  - rewrite map_map. reflexivity.
  - apply Forall_forall. intros o Hin. apply in_map_iff in Hin.
    destruct Hin as [tool [<- _]]. reflexivity.
  - intros name. rewrite existsb_exists. split.
    + intros [tool [Hin Hname]]. apply String.eqb_eq in Hname.
      eexists. split; [apply in_map; exact Hin | exact Hname].
    + intros [o [Hin Hname]]. apply in_map_iff in Hin.
      destruct Hin as [tool [<- Hin]]. exists tool. split; [assumption|].
      now apply String.eqb_eq.
Qed.

Lemma getOpenAITools_exports_catalogue_witness :
  exists o, In o (getOpenAITools (this two_listed)) /\
            function_name (openai_function o) = "A.x".
Proof.
  apply (proj2 (proj2 (getOpenAITools_exports_catalogue (this two_listed)))).
  reflexivity.
Defined.

(** ** More on [executeToolCall] *)

Lemma cut_first_dot_free (b : string) :
  dot_free b = true -> Js.cut_first "." b = (b, None).
Proof.
  induction b as [|c b IH]; simpl; auto.
  intros H. apply andb_true_iff in H. destruct H as [Hc Hb].
  apply negb_true_iff in Hc. rewrite Hc, (IH Hb). reflexivity.
Qed.

Lemma cut_first_qualified (a rest : string) :
  dot_free a = true ->
  Js.cut_first "." (a ++ String "." rest) = (a, Some rest).
Proof.
  induction a as [|c a IH]; simpl; auto.
  intros H. apply andb_true_iff in H. destruct H as [Hc Ha].
  apply negb_true_iff in Hc. rewrite Hc, (IH Ha). reflexivity.
Qed.

(** A qualified name built from a server name and a local name without
    separators splits into exactly these two. *)
Lemma split_limit_qualified (serverName toolName : string) :
  dot_free serverName = true ->
  dot_free toolName = true ->
  Js.split_limit "." 2 (serverName ++ "." ++ toolName) = [serverName; toolName].
Proof.
  intros Hs Ht. unfold Js.split_limit. simpl append.
  rewrite split_cut_first, (cut_first_qualified _ _ Hs). cbn [fst snd].
  rewrite (split_cut_first "." toolName), (cut_first_dot_free _ Ht).
  reflexivity.
Qed.

(** X4. [executeToolCall] never throws: it always returns a result.  It
    changes neither the client nor the files, and it sends at most one
    request, which carries the id and the arguments of the call. *)
Theorem executeToolCall_always_returns :
  forall (e : Env) (s : State) (toolCall : MCPToolCall),
  exists r s',
    executeToolCall toolCall e s = (Returned r, s') /\
    this s' = this s /\
    files (world s') = files (world s) /\
    (requests (world s') = requests (world s) \/
     exists client toolName,
       requests (world s') =
         (requests (world s) ++
          [PostExecute client
             {| body_id := call_id toolCall; body_name := toolName;
                body_arguments := call_arguments toolCall |}])%list).
Proof.
  intros e s toolCall. destruct (isEnabled (this s)) eqn:Hon.
  - rewrite (executeToolCall_on e s toolCall Hon). cbv zeta.
    destruct (Js.falsy _ || Js.falsy _); [eauto 10|].
    destruct (JsMap.get _ _) as [client|]; [|eauto 10].
    destruct (execute_reply e client _);
      eexists; eexists; (split; [reflexivity|]);
      (split; [reflexivity|]); (split; [reflexivity|]);
      right; eexists; eexists; reflexivity.
  - rewrite (executeToolCall_off e s toolCall Hon). eauto 10.
Qed.

(** X5. A call whose name splits into a server name and a tool name, for
    a server that has no client, gets the failure "MCP server not found"
    naming the server, with the id of the call; nothing is sent. *)
Theorem executeToolCall_unknown_server :
  forall (e : Env) (s : State) (toolCall : MCPToolCall)
         (serverName toolName : string),
    isEnabled (this s) = true ->
    Js.split_limit "." 2 (call_name toolCall) = [serverName; toolName] ->
    Js.falsy (Some serverName) = false ->
    Js.falsy (Some toolName) = false ->
    JsMap.get serverName (clients (this s)) = None ->
    executeToolCall toolCall e s =
      (Returned {| result_id := call_id toolCall; result_result := "";
                   result_error := Some ("MCP server not found: " ++ serverName) |},
       s).
Proof.
  intros e s toolCall serverName toolName Hon Hsplit Hs Ht Hc.
  rewrite executeToolCall_on by assumption. cbv zeta.
  rewrite Hsplit. simpl nth_error. rewrite Hs, Ht. simpl.
  rewrite Hc. reflexivity.
Qed.

Lemma executeToolCall_unknown_server_witness :
  executeToolCall call_ghost_x quiet_env two_running =
    (Returned {| result_id := "7"; result_result := "";
                 result_error := Some "MCP server not found: ghost" |},
     two_running).
Proof.
  apply (executeToolCall_unknown_server
           quiet_env two_running call_ghost_x "ghost" "x"); reflexivity.
Defined.

(** X6. When the request to the server fails (refused, timed out, error
    status), the call is not repeated: exactly one request has been sent,
    and the result has the id of the call, an empty output and the error
    "Error executing MCP tool: " followed by the message of the failure. *)
Theorem executeToolCall_transport_failure :
  forall (e : Env) (s : State) (toolCall : MCPToolCall)
         (serverName toolName : string) (client : AxiosInstance)
         (message : string),
    isEnabled (this s) = true ->
    Js.split_limit "." 2 (call_name toolCall) = [serverName; toolName] ->
    Js.falsy (Some serverName) = false ->
    Js.falsy (Some toolName) = false ->
    JsMap.get serverName (clients (this s)) = Some client ->
    execute_reply e client
      {| body_id := call_id toolCall; body_name := toolName;
         body_arguments := call_arguments toolCall |} = Failure message ->
    exists s',
      executeToolCall toolCall e s =
        (Returned {| result_id := call_id toolCall; result_result := "";
                     result_error :=
                       Some ("Error executing MCP tool: " ++ message) |}, s') /\
      this s' = this s /\
      requests (world s') =
        (requests (world s) ++
         [PostExecute client
            {| body_id := call_id toolCall; body_name := toolName;
               body_arguments := call_arguments toolCall |}])%list.
Proof.
  intros e s toolCall serverName toolName client message Hon Hsplit Hs Ht Hc Hr.
  rewrite executeToolCall_on by assumption. cbv zeta.
  rewrite Hsplit. simpl nth_error. rewrite Hs, Ht. simpl.
  rewrite Hc, Hr. eexists. split; [reflexivity|]. split; reflexivity.
Qed.

Lemma executeToolCall_transport_failure_witness :
  exists s',
    executeToolCall call_A_x quiet_env two_running =
      (Returned {| result_id := "1"; result_result := "";
                   result_error :=
                     Some "Error executing MCP tool: connect ECONNREFUSED" |}, s') /\
    this s' = this two_running /\
    requests (world s') =
      (requests (world two_running) ++
       [PostExecute (axios_create "http://localhost:8500" 10000)
          {| body_id := "1"; body_name := "x"; body_arguments := "{}" |}])%list.
Proof.
  apply (executeToolCall_transport_failure
           quiet_env two_running call_A_x "A" "x"
           (axios_create "http://localhost:8500" 10000)
           "connect ECONNREFUSED"); reflexivity.
Defined.

(** X7. Naming and routing fit together when neither the server name nor
    the local name of a tool contains a separator: calling the tool under
    the name [refreshTools] gives it sends the local name, with the id and
    the arguments of the call, to the client of that server. *)
Theorem executeToolCall_routes_qualified_name :
  forall (e : Env) (s : State) (serverName : string) (client : AxiosInstance)
         (tool : MCPTool) (id arguments : string),
    isEnabled (this s) = true ->
    dot_free serverName = true ->
    dot_free (tool_name tool) = true ->
    Js.falsy (Some serverName) = false ->
    Js.falsy (Some (tool_name tool)) = false ->
    JsMap.get serverName (clients (this s)) = Some client ->
    requests (world (snd (executeToolCall
       {| call_id := id; call_name := tool_name (namespaced serverName tool);
          call_arguments := arguments |} e s))) =
    (requests (world s) ++
     [PostExecute client
        {| body_id := id; body_name := tool_name tool;
           body_arguments := arguments |}])%list.
Proof.
  intros e s serverName client tool id arguments Hon Hs Ht Hse Hte Hc.
  rewrite executeToolCall_on by assumption. cbv zeta.
  cbn [call_name call_id call_arguments namespaced tool_name].
  rewrite (split_limit_qualified _ _ Hs Ht). simpl nth_error.
  rewrite Hse, Hte. simpl. rewrite Hc.
  destruct (execute_reply e client _); reflexivity.
Qed.

Lemma executeToolCall_routes_qualified_name_witness :
  requests (world (snd (executeToolCall
     {| call_id := "1"; call_name := "B.x"; call_arguments := "{}" |}
     quiet_env two_running))) =
  [PostExecute (axios_create "http://localhost:8750" 10000)
     {| body_id := "1"; body_name := "x"; body_arguments := "{}" |}].
Proof.
  apply (executeToolCall_routes_qualified_name
           quiet_env two_running "B"
           (axios_create "http://localhost:8750" 10000) tool_x "1" "{}");
    reflexivity.
Defined.

(** ** More on [refreshTools] *)

(** X8. Refreshing twice in the same environment gives the catalogue of
    the first refresh again: tools do not pile up from one refresh to the
    next, and the client is in the same state after the second refresh as
    after the first. *)
Theorem refreshTools_twice :
  forall (e : Env) (s : State),
    let s1 := snd (refreshTools e s) in
    fst (refreshTools e s1) = fst (refreshTools e s) /\
    this (snd (refreshTools e s1)) = this s1.
Proof.
  intros e s s1. unfold s1. destruct (isEnabled (this s)) eqn:Hon.
  - rewrite (refreshTools_on e s Hon). cbv zeta. simpl snd. simpl fst.
    rewrite refreshTools_on by exact Hon. split; reflexivity.
  - rewrite (refreshTools_off e s Hon). simpl.
    rewrite (refreshTools_off e s Hon). split; reflexivity.
Qed.

Lemma files_sent_all (rs : list Request) (s : State) :
  files (world (sent_all rs s)) = files (world s).
Proof.
  revert s. induction rs as [|r rs IH]; intros s; simpl; auto.
  unfold sent_all in IH. now rewrite IH.
Qed.

(** X9. [refreshTools] never throws, whatever the servers answer; it
    assigns no field of the client other than the catalogue, writes no
    file and sends nothing but listing requests. *)
Theorem refreshTools_always_returns :
  forall (e : Env) (s : State),
  exists catalogue s',
    refreshTools e s = (Returned catalogue, s') /\
    clients (this s') = clients (this s) /\
    mcpServers (this s') = mcpServers (this s) /\
    same_settings (this s) (this s') /\
    files (world s') = files (world s) /\
    exists listings,
      requests (world s') = (requests (world s) ++ listings)%list /\
      Forall (fun r => exists client, r = GetTools client) listings.
Proof.
  intros e s. destruct (isEnabled (this s)) eqn:Hon.
  - rewrite (refreshTools_on e s Hon). cbv zeta.
    eexists. eexists. split; [reflexivity|]. simpl.
    split; [reflexivity|]. split; [reflexivity|].
    split; [split; reflexivity|]. split.
    + apply files_sent_all.
    + exists (listing_requests (JsMap.entries (clients (this s)))).
      split; [apply requests_sent_all|].
      unfold listing_requests. apply Forall_forall. intros r Hin.
      apply in_map_iff in Hin. destruct Hin as [[name client] [<- _]]. eauto.
  - rewrite (refreshTools_off e s Hon).
    exists [], s. split; [reflexivity|]. split; [reflexivity|].
    split; [reflexivity|]. split; [split; reflexivity|].
    split; [reflexivity|]. exists []. split; [now rewrite app_nil_r | constructor].
Qed.

(** ** More on persistence *)



Lemma has_true_in {V : Type} (k : string) (m : JsMap.t V) :
  JsMap.has k m = true <-> In k (JsMap.keys m).
Proof.
  destruct (JsMap.has k m) eqn:E; split; intros H; auto.
  - destruct (in_dec string_dec k (JsMap.keys m)) as [Hin | Hout]; auto.
    apply JsMapFacts.has_false_not_in in Hout. congruence.
  - discriminate.
  - apply JsMapFacts.has_false_not_in in E. contradiction.
Qed.




(** When every saved name is known the loop changes nothing. *)
Lemma fold_register_all_known (entries : list (string * SavedInfo)) :
  forall s : State,
    (forall en, In en entries ->
                JsMap.has (fst en) (mcpServers (this s)) = true) ->
    fold_left register_discovered entries s = s.
Proof.
  induction entries as [|[n i] entries IH]; intros s H; simpl; auto.
  assert (Hstep : register_discovered s (n, i) = s).
  { pose proof (H (n, i) (or_introl eq_refl)) as Hk. simpl in Hk.
    unfold register_discovered. simpl. now rewrite Hk. }
  rewrite Hstep. apply IH. intros en Hin. apply H. now right.
Qed.




Lemma keys_set_incl {V : Type} (k k' : string) (v : V) (m : JsMap.t V) :
  In k (JsMap.keys (JsMap.set k' v m)) -> k = k' \/ In k (JsMap.keys m).
Proof.
  induction m as [|[k0 v0] m IH]; simpl.
  - intros [H | []]. now left.
  - destruct (String.eqb_spec k0 k'); simpl; intros [H | H]; auto.
    apply IH in H. tauto.
Qed.

Lemma keys_state_of_fold (servers : list (string * MCPServerInfo)) :
  forall (acc : JsMap.t SavedInfo) (k : string),
    In k (JsMap.keys
            (fold_left
               (fun state '(name, info) =>
                  JsMap.set name {| saved_id := server_id info;
                                    saved_url := server_url info |} state)
               servers acc)) ->
    In k (JsMap.keys acc) \/ In k (JsMap.keys servers).
Proof.
  induction servers as [|[n i] servers IH]; intros acc k H; simpl in *; auto.
  apply IH in H. destruct H as [H | H]; [|tauto].
  apply keys_set_incl in H. destruct H as [-> | H]; auto.
Qed.

(** X12. After a save that succeeds, the instance that saved finds
    nothing new in its own state file: loading changes nothing. *)
Theorem save_then_load_same_instance :
  forall (e : Env) (s : State),
    write_fails e (serverStateFile (this s)) = false ->
    let s1 := snd (saveServerState e s) in
    this s1 = this s /\
    loadServerState e s1 = (Returned tt, s1).
Proof.
  intros e s Hwrite s1. unfold s1.
  rewrite saveServerState_run, Hwrite. simpl. split; [reflexivity|].
  rewrite loadServerState_run. simpl. rewrite String.eqb_refl.
  unfold load_entries, JsMap.entries. f_equal.
  apply fold_register_all_known. intros [n i] Hin. simpl.
  apply has_true_in.
  assert (Hk : In n (JsMap.keys (state_of (mcpServers (this s))))).
  { change n with (fst (n, i)). now apply in_map. }
  unfold state_of, JsMap.entries in Hk. apply keys_state_of_fold in Hk.
  destruct Hk as [[] | Hk]. exact Hk.
Qed.

Lemma save_then_load_same_instance_witness :
  loadServerState quiet_env (snd (saveServerState quiet_env two_running))
  = (Returned tt, snd (saveServerState quiet_env two_running)).
Proof.
  apply (save_then_load_same_instance quiet_env two_running). reflexivity.
Defined.



(** ** More on [startServers] *)

Lemma launch_returns (e : Env) (s : State) (name : string) (serverConfig : ServerConfig) :
  launch name serverConfig e s = (Returned tt, snd (launch name serverConfig e s)).
Proof.
  rewrite launch_run. cbv zeta.
  destruct (spawn_fails e (command serverConfig)); reflexivity.
Qed.

Lemma launches_cons (e : Env) (s : State) (name : string)
      (serverConfig : ServerConfig) (servers : list (string * ServerConfig)) :
  for_of ((name, serverConfig) :: servers)
         (fun '(name, serverConfig) => launch name serverConfig) e s
  = for_of servers (fun '(name, serverConfig) => launch name serverConfig) e
           (snd (launch name serverConfig e s)).
Proof. simpl. unfold bind. now rewrite launch_returns. Qed.

Lemma launch_keeps_other (e : Env) (s : State) (name other : string)
      (serverConfig : ServerConfig) :
  name <> other ->
  JsMap.get other (mcpServers (this (snd (launch name serverConfig e s))))
    = JsMap.get other (mcpServers (this s)) /\
  JsMap.get other (clients (this (snd (launch name serverConfig e s))))
    = JsMap.get other (clients (this s)).
Proof.
  intros Hne. rewrite launch_run. cbv zeta.
  destruct (spawn_fails e (command serverConfig)); simpl; auto.
  now rewrite !JsMapFacts.get_set_other.
Qed.



(** X14. One launch.  When the process cannot be spawned nothing is
    registered.  When it is spawned, the port given to the child after
    "--port" is the port of the url in the registry and of the base url of
    the client, whose timeout is 10000; the record holds the process.  The
    records and clients of other names are untouched either way. *)
Theorem launch_registers_what_it_spawns :
  forall (e : Env) (s : State) (name : string) (serverConfig : ServerConfig),
  exists s',
    launch name serverConfig e s = (Returned tt, s') /\
    (spawn_fails e (command serverConfig) = true ->
     this s' = this s /\ spawned (world s') = spawned (world s)) /\
    (spawn_fails e (command serverConfig) = false ->
     exists (port : Z) (id : string) (process : ChildProcess),
       spawned (world s') =
         (spawned (world s) ++
          [{| spawn_command := command serverConfig;
              spawn_args := args serverConfig ++ ["--port"; Js.toString port] |}])%list /\
       JsMap.get name (mcpServers (this s')) =
         Some {| server_id := id;
                 server_url := "http://localhost:" ++ Js.toString port;
                 server_process := Some process |} /\
       JsMap.get name (clients (this s')) =
         Some {| baseURL := "http://localhost:" ++ Js.toString port;
                 timeout := 10000 |}) /\
    (forall other, name <> other ->
       JsMap.get other (mcpServers (this s')) = JsMap.get other (mcpServers (this s)) /\
       JsMap.get other (clients (this s')) = JsMap.get other (clients (this s))).
Proof.
  intros e s name serverConfig.
  exists (snd (launch name serverConfig e s)).
  split; [apply launch_returns|]. split; [|split].
  - intros Hfail. rewrite launch_run. cbv zeta. rewrite Hfail. split; reflexivity.
  - intros Hok. rewrite launch_run. cbv zeta. rewrite Hok. simpl.
    eexists. eexists. eexists. split; [reflexivity|].
    split; apply JsMapFacts.get_set_same.
  - intros other Hne. now apply launch_keeps_other.
Qed.

Lemma launch_registers_what_it_spawns_witness :
  JsMap.get "A" (mcpServers (this (snd (launch "A"
     {| command := "server-a"; args := [] |} no_server_a_env fresh_state)))) = None /\
  exists port,
    JsMap.get "A" (clients (this (snd (launch "A"
       {| command := "server-a"; args := [] |} quiet_env fresh_state)))) =
      Some {| baseURL := "http://localhost:" ++ Js.toString port;
              timeout := 10000 |}.
Proof.
  split.
  - destruct (launch_registers_what_it_spawns no_server_a_env fresh_state "A"
                {| command := "server-a"; args := [] |})
      as (s' & Hrun & Hfail & _ & _).
    rewrite Hrun. simpl snd. destruct (Hfail eq_refl) as [Hthis _].
    rewrite Hthis. reflexivity.
  - destruct (launch_registers_what_it_spawns quiet_env fresh_state "A"
                {| command := "server-a"; args := [] |})
      as (s' & Hrun & _ & Hok & _).
    rewrite Hrun. simpl snd.
    destruct (Hok eq_refl) as (port & id & process & _ & _ & Hclient).
    exists port. exact Hclient.
Defined.






(** ** More on the exit handler and on [cleanup] *)

Lemma delete_absent {V : Type} (k : string) (m : JsMap.t V) :
  JsMap.get k m = None -> JsMap.delete k m = m.
Proof.
  induction m as [|[k' v'] m IH]; simpl; auto.
  destruct (String.eqb k' k); [discriminate|].
  intros H. now rewrite IH.
Qed.

(** X17. The exit handler of a server removes the record of that name
    from the registry and nothing else: the other records stay, the world
    is untouched, and for a name that has no record the registry is left
    as it is. *)
Theorem on_exit_removes_only_that_record :
  forall (e : Env) (s : State) (name : string),
  exists s',
    on_exit name e s = (Returned tt, s') /\
    JsMap.get name (mcpServers (this s')) = None /\
    (forall other, name <> other ->
       JsMap.get other (mcpServers (this s')) =
       JsMap.get other (mcpServers (this s))) /\
    world s' = world s /\
    (JsMap.get name (mcpServers (this s)) = None ->
     mcpServers (this s') = mcpServers (this s)).
Proof.
  intros e s name. eexists. split; [reflexivity|]. simpl.
  split; [apply JsMapFacts.get_delete_same|].
  split; [intros other Hne; now apply JsMapFacts.get_delete_other|].
  split; [reflexivity | apply delete_absent].
Qed.

Lemma on_exit_removes_only_that_record_witness :
  exists s',
    on_exit "ghost" quiet_env two_running = (Returned tt, s') /\
    mcpServers (this s') = mcpServers (this two_running).
Proof.
  destruct (on_exit_removes_only_that_record quiet_env two_running "ghost")
    as (s' & Hrun & _ & _ & _ & Habsent).
  exists s'. split; [assumption|]. apply Habsent. reflexivity.
Defined.

(** X18. When the server that exits is the only one registered, the
    client is no longer enabled: every call gets the generic failure and
    every refresh returns the empty list, in any environment. *)
Theorem on_exit_of_last_server_disables :
  forall (e : Env) (s : State) (name : string),
    JsMap.keys (mcpServers (this s)) = [name] ->
    let s' := snd (on_exit name e s) in
    isEnabled (this s') = false /\
    (forall e' toolCall,
        executeToolCall toolCall e' s' =
          (Returned (failed toolCall error_disabled), s')) /\
    (forall e', refreshTools e' s' = (Returned [], s')).
Proof.
  intros e s name Hkeys s'.
  assert (Hoff : isEnabled (this s') = false).
  { unfold s', isEnabled. simpl.
    destruct (mcpServers (this s)) as [|[n i] [|x rest]]; try discriminate.
    simpl in Hkeys. injection Hkeys as ->. simpl.
    rewrite String.eqb_refl. simpl. apply andb_false_r. }
  split; [assumption|]. split.
  - intros e' toolCall. now apply executeToolCall_off.
  - intros e'. now apply refreshTools_off.
Qed.

Lemma on_exit_of_last_server_disables_witness :
  isEnabled (this one_running) = true /\
  isEnabled (this (snd (on_exit "A" quiet_env one_running))) = false.
Proof.
  split; [reflexivity|].
  apply (on_exit_of_last_server_disables quiet_env one_running "A").
  reflexivity.
Defined.

Lemma requests_killed (ps : list ChildProcess) (s : State) :
  requests (world (killed ps s)) = requests (world s) /\
  spawned (world (killed ps s)) = spawned (world s).
Proof.
  revert s. unfold killed.
  induction ps as [|p ps IH]; intros s; simpl; auto.
  destruct (IH {| this := this s; world := record_kill p (world s) |}) as [H1 H2].
  simpl in H1, H2. split; assumption.
Qed.

Lemma owned_processes_none (servers : JsMap.t MCPServerInfo) :
  (forall name info, In (name, info) (JsMap.entries servers) ->
                     server_process info = None) ->
  owned_processes servers = [].
Proof.
  unfold owned_processes, JsMap.entries.
  induction servers as [|[n i] servers IH]; intros H; simpl; auto.
  rewrite (H n i (or_introl eq_refl)). simpl. apply IH.
  intros name info Hin. apply (H name info). now right.
Qed.

(** X19. [cleanup] leaves the client as it is (the registry keeps its
    records), sends no request, spawns nothing, touches no file but the
    state file and does not create the state file when it is missing; and
    it signals no process when every record of the registry was loaded
    from the state file. *)
Theorem cleanup_touches_little :
  forall (e : Env) (s : State),
  exists s',
    cleanup e s = (Returned tt, s') /\
    this s' = this s /\
    requests (world s') = requests (world s) /\
    spawned (world s') = spawned (world s) /\
    (forall path, path <> serverStateFile (this s) ->
                  files (world s') path = files (world s) path) /\
    (files (world s) (serverStateFile (this s)) = None ->
     files (world s') (serverStateFile (this s)) = None) /\
    ((forall name info,
         In (name, info) (JsMap.entries (mcpServers (this s))) ->
         server_process info = None) ->
     kill_calls (world s') = kill_calls (world s)).
Proof.
  intros e s. rewrite cleanup_run. cbv zeta.
  set (s1 := killed (owned_processes (mcpServers (this s))) s).
  assert (Hthis : this s1 = this s) by apply this_killed.
  assert (Hfiles : files (world s1) = files (world s)) by apply files_killed.
  destruct (requests_killed (owned_processes (mcpServers (this s))) s)
    as [Hreq Hsp]. fold s1 in Hreq, Hsp.
  assert (Hkill : (forall name info,
                      In (name, info) (JsMap.entries (mcpServers (this s))) ->
                      server_process info = None) ->
                  kill_calls (world s1) = kill_calls (world s)).
  { intros Hnone. unfold s1. rewrite kill_calls_killed.
    rewrite (owned_processes_none _ Hnone). apply app_nil_r. }
  destruct (files (world s) (serverStateFile (this s))) eqn:Hf;
    [destruct (write_fails e (serverStateFile (this s)))|].
  - exists s1. repeat split; auto.
    + intros path _. now rewrite Hfiles.
    + discriminate.
  - eexists. split; [reflexivity|]. simpl. repeat split; auto.
    + intros path Hne.
      destruct (String.eqb_spec path (serverStateFile (this s)));
        [contradiction | now rewrite Hfiles].
    + discriminate.
  - exists s1. repeat split; auto.
    + intros path _. now rewrite Hfiles.
    + intros _. now rewrite Hfiles.
Qed.

Lemma cleanup_touches_little_witness :
  let loaded :=
    snd (loadServerState quiet_env
           {| this := new_MCPClient "/work/.mcp-servers.json";
              world := world_with_state |}) in
  JsMap.size (mcpServers (this loaded)) = 1%nat /\
  kill_calls (world (snd (cleanup quiet_env loaded))) = [].
Proof.
  intros loaded. split; [reflexivity|].
  destruct (cleanup_touches_little quiet_env loaded)
    as (s' & Hrun & _ & _ & _ & _ & _ & Hkill).
  rewrite Hrun. simpl snd. rewrite Hkill; [reflexivity|].
  intros name info Hin. vm_compute in Hin.
  destruct Hin as [Heq | []]. injection Heq as _ <-. reflexivity.
Defined.

(** ** What holds in every state of a client *)

Lemma sound_new (stateFile : string) : sound stateFile (new_MCPClient stateFile).
Proof.
  unfold sound, linked. simpl. repeat split; try constructor.
  intros name info H. discriminate.
Qed.

Lemma sound_register (stateFile : string) (t : MCPClient) (name : string)
      (info : MCPServerInfo) :
  sound stateFile t ->
  sound stateFile
    (set_clients
       (JsMap.set name (axios_create (server_url info) 10000) (clients t))
       (set_mcpServers (JsMap.set name info (mcpServers t)) t)).
Proof.
  intros (He & Hf & Hwm & Hwc & Hl). unfold sound. simpl.
  repeat split; auto; try now apply JsMapFacts.wf_set.
  intros n i Hget. simpl in *.
  destruct (string_dec name n) as [-> | Hne].
  - rewrite JsMapFacts.get_set_same in Hget. injection Hget as <-.
    apply JsMapFacts.get_set_same.
  - rewrite JsMapFacts.get_set_other in Hget by assumption.
    rewrite JsMapFacts.get_set_other by assumption. now apply Hl.
Qed.

Lemma sound_delete (stateFile : string) (t : MCPClient) (name : string) :
  sound stateFile t ->
  sound stateFile (set_mcpServers (JsMap.delete name (mcpServers t)) t).
Proof.
  intros (He & Hf & Hwm & Hwc & Hl). unfold sound. simpl.
  repeat split; auto; try now apply JsMapFacts.wf_delete.
  intros n i Hget. simpl in *. apply Hl.
  destruct (string_dec name n) as [-> | Hne].
  - rewrite JsMapFacts.get_delete_same in Hget. discriminate.
  - now rewrite JsMapFacts.get_delete_other in Hget.
Qed.

Lemma sound_tools (stateFile : string) (t : MCPClient) (ts : list MCPTool) :
  sound stateFile t -> sound stateFile (set_tools ts t).
Proof. intros H. exact H. Qed.

Lemma launch_sound (stateFile : string) (e : Env) (s : State) (name : string)
      (serverConfig : ServerConfig) :
  sound stateFile (this s) ->
  sound stateFile (this (snd (launch name serverConfig e s))).
Proof.
  intros H. rewrite launch_run. cbv zeta.
  destruct (spawn_fails e (command serverConfig)); simpl; auto.
  exact (sound_register stateFile (this s) name
           {| server_id := uuid_src e (uuid_calls (world s));
              server_url := _; server_process := _ |} H).
Qed.

Lemma launches_sound (stateFile : string) (e : Env)
      (servers : list (string * ServerConfig)) :
  forall s : State,
    sound stateFile (this s) ->
    sound stateFile
      (this (snd (for_of servers
                    (fun '(name, serverConfig) => launch name serverConfig) e s))).
Proof.
  induction servers as [|[name serverConfig] servers IH]; intros s H; auto.
  rewrite launches_cons. apply IH. now apply launch_sound.
Qed.

Lemma load_entries_sound (stateFile : string) (entries : list (string * SavedInfo)) :
  forall s : State,
    sound stateFile (this s) ->
    sound stateFile (this (fold_left register_discovered entries s)).
Proof.
  induction entries as [|[n i] entries IH]; intros s H; simpl; auto.
  apply IH. unfold register_discovered. simpl.
  destruct (JsMap.has n (mcpServers (this s))); auto.
  exact (sound_register stateFile (this s) n (discovered i) H).
Qed.

Lemma executeToolCall_this (e : Env) (s : State) (toolCall : MCPToolCall) :
  this (snd (executeToolCall toolCall e s)) = this s.
Proof.
  destruct (isEnabled (this s)) eqn:Hon.
  - rewrite (executeToolCall_on e s toolCall Hon). cbv zeta.
    destruct (Js.falsy _ || Js.falsy _); auto.
    destruct (JsMap.get _ _) as [client|]; auto.
    destruct (execute_reply e client _); reflexivity.
  - now rewrite (executeToolCall_off e s toolCall Hon).
Qed.

Lemma step_sound (stateFile : string) (s s' : State) :
  step s s' -> sound stateFile (this s) -> sound stateFile (this s').
Proof.
  intros Hstep H. destruct Hstep.
  - now apply launch_sound.
  - unfold startServers. destruct (config_mcpServers config) as [servers|]; auto.
    unfold bind.
    destruct (launches_return e (JsMap.entries servers) s) as [s1 Hrun].
    pose proof (launches_sound stateFile e (JsMap.entries servers) s H) as H1.
    rewrite Hrun in *. simpl snd in H1. cbv beta iota.
    rewrite saveServerState_run. simpl.
    destruct (write_fails e (serverStateFile (this s1))); exact H1.
  - rewrite saveServerState_run. simpl.
    destruct (write_fails e (serverStateFile (this s))); exact H.
  - rewrite loadServerState_run. simpl.
    destruct (files (world s) (serverStateFile (this s))) as [[state|raw]|]; auto.
    now apply load_entries_sound.
  - simpl. now apply sound_delete.
  - rewrite cleanup_run. cbv zeta. simpl.
    destruct (files (world s) (serverStateFile (this s)));
      [destruct (write_fails e (serverStateFile (this s)))|];
      simpl; rewrite this_killed; exact H.
  - destruct (isEnabled (this s)) eqn:Hon.
    + rewrite (refreshTools_on e s Hon). cbv zeta. simpl. now apply sound_tools.
    + now rewrite (refreshTools_off e s Hon).
  - now rewrite executeToolCall_this.
  - exact H.
Qed.

Lemma reachable_sound (stateFile : string) (s : State) :
  reachable stateFile s -> sound stateFile (this s).
Proof.
  intros Hreach. induction Hreach as [w | s s' _ IH Hstep].
  - apply sound_new.
  - exact (step_sound stateFile s s' Hstep IH).
Qed.

(** X20. In every state a client can reach from its construction, by
    any methods in any environments, with exit handlers running and the
    world changing in between: the client has not been disabled, its
    state file is the one it was created with, no name occurs twice in
    the registry or among the clients, and every registered server has a
    client for its url with the timeout 10000. *)
Theorem reachable_states_are_sound :
  forall (stateFile : string) (s : State),
    reachable stateFile s ->
    enabled (this s) = true /\
    serverStateFile (this s) = stateFile /\
    NoDup (JsMap.keys (mcpServers (this s))) /\
    NoDup (JsMap.keys (clients (this s))) /\
    (forall name info,
        JsMap.get name (mcpServers (this s)) = Some info ->
        JsMap.get name (clients (this s)) =
          Some {| baseURL := server_url info; timeout := 10000 |}).
Proof.
  intros stateFile s Hreach. exact (reachable_sound stateFile s Hreach).
Qed.

Lemma reachable_states_are_sound_witness :
  enabled (this after_exit_A) = true /\
  NoDup (JsMap.keys (clients (this after_exit_A))).
Proof.
  assert (Hreach : reachable "/work/.mcp-servers.json" after_exit_A).
  { apply (reachable_step _ two_running).
    - apply (reachable_step _ fresh_state).
      + apply (reachable_new "/work/.mcp-servers.json" empty_world).
      + apply (step_startServers quiet_env fresh_state two_servers).
    - apply (step_on_exit quiet_env two_running "A"). }
  destruct (reachable_states_are_sound _ _ Hreach) as (He & _ & _ & Hc & _).
  split; assumption.
Defined.


